(** * QR code generator: the generation pipeline of [qr_generator.py]

    A shallow embedding of class [QRCodeGenerator] and of the exception
    classes of the module, with the properties of the pipeline stated
    and proved on it.

    Conventions.
    - A Python [str] is a list of Unicode code points ([list N]), so that
      [len] is [length] and [s[:50]] is [take 50 s].
    - What Python's Unicode database decides for characters outside ASCII
      ([str.isalnum], [str.isspace], [str.isprintable], [str.lower],
      [str.upper]) is not part of the module: it is the interface
      [Unicode] below.  On ASCII the methods are written out.
    - The [qrcode] library, PIL and the operating system are collaborators
      of the module: their outcomes (a value or a raised exception) are
      supplied by the record [Env].
    - Calls to [self.logger] are not modelled. *)

From Stdlib Require Import String Ascii NArith ZArith List Lia.
From stdpp Require Import base option list gmap.

Set Warnings "-register-all".
Local Open Scope N_scope.

(** ** Python strings *)

Abbreviation pystr := (list N).

Definition chr (a : ascii) : N := N_of_ascii a.
Arguments chr a%_char.

Definition lit (s : string) : pystr := map N_of_ascii (list_ascii_of_string s).
Arguments lit s%_string.

Definition is_ascii (c : N) : bool := c <? 128.
Definition ascii_isdigit (c : N) : bool := (48 <=? c) && (c <=? 57).
Definition ascii_isupper (c : N) : bool := (65 <=? c) && (c <=? 90).
Definition ascii_islower (c : N) : bool := (97 <=? c) && (c <=? 122).
Definition ascii_isalnum (c : N) : bool :=
  ascii_isdigit c || ascii_isupper c || ascii_islower c.
(* \t \n \x0b \x0c \r, \x1c..\x1f and the space *)
Definition ascii_isspace (c : N) : bool :=
  ((9 <=? c) && (c <=? 13)) || ((28 <=? c) && (c <=? 32)).
Definition ascii_lower (c : N) : N := if ascii_isupper c then c + 32 else c.
Definition ascii_upper (c : N) : N := if ascii_islower c then c - 32 else c.

(** The part of the [str] methods that Python takes from its Unicode
    database.  [unicode_lower] and [unicode_upper] receive the whole
    string, because case conversion is not character by character outside
    ASCII. *)
Class Unicode := {
  unicode_isalnum : N -> bool;
  unicode_isspace : N -> bool;
  unicode_lower : pystr -> pystr;
  unicode_upper : pystr -> pystr;
  unicode_isprintable : N -> bool
}.

(** A database for running the model on ASCII strings, on which none of
    its fields is consulted. *)
Definition ascii_only : Unicode := {|
  unicode_isalnum := fun _ => false;
  unicode_isspace := fun _ => false;
  unicode_lower := fun s => s;
  unicode_upper := fun s => s;
  unicode_isprintable := fun _ => false
|}.

Section Str.
Context {U : Unicode}.

(** [c.isalnum()] and [c.isspace()] for a one-character string [c]. *)
Definition isalnum (c : N) : bool :=
  if is_ascii c then ascii_isalnum c else unicode_isalnum c.
Definition isspace (c : N) : bool :=
  if is_ascii c then ascii_isspace c else unicode_isspace c.

(** [s.lower()] and [s.upper()]. *)
Definition lower (s : pystr) : pystr :=
  if forallb is_ascii s then map ascii_lower s else unicode_lower s.
Definition upper (s : pystr) : pystr :=
  if forallb is_ascii s then map ascii_upper s else unicode_upper s.

(** [s.strip()]. *)
Fixpoint lstrip (s : pystr) : pystr :=
  match s with
  | [] => []
  | c :: s' => if isspace c then lstrip s' else s
  end.
Definition rstrip (s : pystr) : pystr := rev (lstrip (rev s)).
Definition strip (s : pystr) : pystr := rstrip (lstrip s).

(** [repr(s)]: the quote is the double quote when [s] holds a single
    quote and no double quote, the single quote otherwise; the quote and
    the backslash are escaped, and so is every character that is not
    printable. *)
Definition backslash : N := 92.
Definition squote : N := 39.
Definition dquote : N := 34.
Definition hex_digit (n : N) : N := if n <? 10 then 48 + n else 87 + n.
Fixpoint hex (digits : nat) (n : N) : pystr :=
  match digits with
  | O => []
  | S k => hex k (n / 16) ++ [hex_digit (n mod 16)]
  end.
Definition repr_char (quote c : N) : pystr :=
  if (c =? quote) || (c =? backslash) then [backslash; c]
  else if c =? 9 then [backslash; chr "t"]
  else if c =? 10 then [backslash; chr "n"]
  else if c =? 13 then [backslash; chr "r"]
  else if (c <? 32) || (c =? 127) then [backslash; chr "x"] ++ hex 2 c
  else if c <? 127 then [c]
  else if unicode_isprintable c then [c]
  else if c <=? 255 then [backslash; chr "x"] ++ hex 2 c
  else if c <=? 65535 then [backslash; chr "u"] ++ hex 4 c
  else [backslash; chr "U"] ++ hex 8 c.
Definition repr (s : pystr) : pystr :=
  let quote :=
    if existsb (N.eqb squote) s && negb (existsb (N.eqb dquote) s)
    then dquote else squote in
  [quote] ++ concat (map (repr_char quote) s) ++ [quote].

(** [str(l)] for a list [l] of strings. *)
Fixpoint join (sep : pystr) (l : list pystr) : pystr :=
  match l with
  | [] => []
  | [x] => x
  | x :: l' => x ++ sep ++ join sep l'
  end.
Definition str_of_list (l : list pystr) : pystr :=
  lit "[" ++ join (lit ", ") (map repr l) ++ lit "]".

End Str.

(** [posixpath.join(a, b)]. *)
Definition startswith_sep (b : pystr) : bool :=
  match b with
  | c :: _ => c =? chr "/"
  | [] => false
  end.
Definition endswith_sep (a : pystr) : bool :=
  match last a with
  | Some d => d =? chr "/"
  | None => false
  end.
Definition os_path_join (a b : pystr) : pystr :=
  if startswith_sep b then b
  else if bool_decide (a = []) || endswith_sep a then a ++ b
  else a ++ lit "/" ++ b.

(** ** Exceptions *)

(** The exception classes the module can meet.  The last four are the
    classes the module defines; its [PermissionError] is a class of its
    own, derived from [FileSystemError], and is what the name
    [PermissionError] means everywhere in the module.  The built-in class
    of that name, raised by the operating system, is
    [builtins_PermissionError]. *)
Inductive exc_class :=
  | BaseException
  | KeyboardInterrupt
  | Exception
  | OSError
  | builtins_PermissionError
  | KeyError
  | TypeError
  | AttributeError
  | ValueError
  | DataOverflowError
  | QRGenerationError
  | InputValidationError
  | FileSystemError
  | PermissionError.

#[global] Instance exc_class_eq_dec : EqDecision exc_class.
Proof. solve_decision. Defined.

(** The base class of each class. *)
Definition base (c : exc_class) : option exc_class :=
  match c with
  | BaseException => None
  | KeyboardInterrupt => Some BaseException
  | Exception => Some BaseException
  | OSError => Some Exception
  | builtins_PermissionError => Some OSError
  | KeyError => Some Exception
  | TypeError => Some Exception
  | AttributeError => Some Exception
  | ValueError => Some Exception
  | DataOverflowError => Some Exception
  | QRGenerationError => Some Exception
  | InputValidationError => Some QRGenerationError
  | FileSystemError => Some QRGenerationError
  | PermissionError => Some FileSystemError
  end.

Fixpoint ancestors (fuel : nat) (c : exc_class) : list exc_class :=
  c :: match fuel, base c with
       | S n, Some b => ancestors n b
       | _, _ => []
       end.

(** The classes an instance of [c] is an instance of (no chain of bases
    is longer than five). *)
Definition mro (c : exc_class) : list exc_class := ancestors 5 c.

Definition issubclass (c d : exc_class) : bool := bool_decide (d ∈ mro c).

(** An exception object: its class, the message it was built with, and
    [__cause__] (set by [raise ... from e]). *)
Inductive exn := Exn (cls : exc_class) (message : pystr) (cause : option exn).

Definition exn_class (e : exn) : exc_class := let 'Exn c _ _ := e in c.
Definition exn_message (e : exn) : pystr := let 'Exn _ m _ := e in m.
Definition exn_cause (e : exn) : option exn := let 'Exn _ _ c := e in c.

Definition isinstance (e : exn) (c : exc_class) : bool := issubclass (exn_class e) c.

(** The classes of the module pass [(message, error_code)] to
    [Exception.__init__], and [error_code] is [None] at every [raise] of
    the module. *)
Definition defined_here (c : exc_class) : bool :=
  match c with
  | QRGenerationError | InputValidationError | FileSystemError | PermissionError => true
  | _ => false
  end.

(** [str(e)]: for the classes of the module the two arguments as a
    tuple; for the others the text they carry. *)
Definition str_exn `{Unicode} (e : exn) : pystr :=
  if defined_here (exn_class e)
  then lit "(" ++ repr (exn_message e) ++ lit ", None)"
  else exn_message e.

Inductive result (A : Type) :=
  | Ok (a : A)
  | Raise (e : exn).
Arguments Ok {A} a.
Arguments Raise {A} e.

(** ** Values, collaborators and the world *)

(** The values [data] can be bound to at a call. *)
Inductive pyval :=
  | PyNone
  | PyBool (b : bool)
  | PyInt (z : Z)
  | PyStr (s : pystr)
  | PyBytes (b : list N)
  | PyList (l : list pyval).

Definition rgb : Type := Z * Z * Z.

Inductive ec_level :=
  | ERROR_CORRECT_L
  | ERROR_CORRECT_M
  | ERROR_CORRECT_Q
  | ERROR_CORRECT_H.

Inductive module_drawer :=
  | SquareModuleDrawer
  | RoundedModuleDrawer
  | GappedSquareModuleDrawer
  | CircleModuleDrawer
  | VerticalBarsDrawer
  | HorizontalBarsDrawer.

Inductive color_mask_class :=
  | RadialGradiantColorMask
  | SquareGradiantColorMask
  | HorizontalGradiantColorMask
  | VerticalGradiantColorMask
  | SolidFillColorMask.

(** A colour mask object: [cls()] or
    [SolidFillColorMask(back_color=..., front_color=...)]. *)
Inductive color_mask_obj :=
  | MaskDefault (cls : color_mask_class)
  | SolidFill (back_color front_color : rgb).

(** The [qrcode.QRCode] object after [make(fit=True)]. *)
Record QRCode := {
  qr_modules : list (list bool);
  qr_box_size : Z;
  qr_border : Z
}.

(** What [qr.make_image] was asked for; the image object is identified
    with it. *)
Inductive image :=
  | PilImage (qr : QRCode) (fill_color back_color : rgb)
  | StyledPilImage (qr : QRCode) (drawer : module_drawer) (mask : color_mask_obj).

(** The outcomes of the calls that leave the module.  [None] in an
    [option exn] is a call that returns. *)
Record Env := {
  (* qrcode.QRCode(version, error_correction, box_size, border);
     qr.add_data(data); qr.make(fit=True) *)
  qr_make : pystr -> option Z -> ec_level -> Z -> Z -> result (list (list bool));
  (* qr.make_image(...) *)
  qr_make_image : image -> option exn;
  (* img.save(path): the bytes written *)
  img_save : image -> pystr -> result (list N);
  (* os.makedirs(path) *)
  os_makedirs : pystr -> option exn;
  (* open(path, "w") *)
  open_w : pystr -> option exn;
  (* f.write(text), up to the close at the end of the with block *)
  file_write : pystr -> pystr -> option exn;
  (* os.remove(path) *)
  os_remove : pystr -> option exn
}.

(** A call that left the module. *)
Inductive call :=
  | CallEncode (data : pystr) (version : option Z) (level : ec_level) (box_size border : Z)
  | CallMakeImage (img : image)
  | CallSave (img : image) (path : pystr).

(** The file system (directories, and files with their contents) and the
    calls made so far, latest first. *)
Record world := {
  dirs : gset pystr;
  files : gmap pystr (list N);
  calls : list call
}.

Definition with_dirs (d : gset pystr) (w : world) : world :=
  {| dirs := d; files := files w; calls := calls w |}.
Definition with_files (f : gmap pystr (list N)) (w : world) : world :=
  {| dirs := dirs w; files := f; calls := calls w |}.
Definition with_call (c : call) (w : world) : world :=
  {| dirs := dirs w; files := files w; calls := c :: calls w |}.

(** ** Computations: state passing with exceptions *)

Definition M (A : Type) : Type := world -> result A * world.

Definition ret {A} (a : A) : M A := fun w => (Ok a, w).
Definition raise {A} (e : exn) : M A := fun w => (Raise e, w).
Definition bind {A B} (m : M A) (k : A -> M B) : M B :=
  fun w => match m w with
           | (Ok a, w') => k a w'
           | (Raise e, w') => (Raise e, w')
           end.
Definition lift {A} (r : result A) : M A := fun w => (r, w).

Notation "'let*' x ':=' m 'in' k" := (bind m (fun x => k))
  (at level 10, x name, m at level 100, k at level 200).
Notation "m ';;;' k" := (bind m (fun _ => k))
  (at level 100, k at level 200, right associativity).

(** [except c as e: h e] clauses, tried in order. *)
Fixpoint handle {A} (handlers : list (exc_class * (exn -> M A))) (e : exn) : M A :=
  match handlers with
  | [] => raise e
  | (c, h) :: rest => if isinstance e c then h e else handle rest e
  end.

Definition try_except {A} (body : M A) (handlers : list (exc_class * (exn -> M A))) : M A :=
  fun w => match body w with
           | (Ok a, w') => (Ok a, w')
           | (Raise e, w') => handle handlers e w'
           end.

(** [d[k]] on a dict given by its items in insertion order. *)
Fixpoint dict_get {V} (d : list (pystr * V)) (k : pystr) : option V :=
  match d with
  | [] => None
  | (k', v) :: d' => if bool_decide (k' = k) then Some v else dict_get d' k
  end.
Definition keys {V} (d : list (pystr * V)) : list pystr := map fst d.

Definition getitem `{Unicode} {V} (d : list (pystr * V)) (k : pystr) : M V :=
  match dict_get d k with
  | Some v => ret v
  | None => raise (Exn KeyError (repr k) None)
  end.

(** ** Class [QRCodeGenerator] *)

Definition ERROR_CORRECTION_MAP : list (pystr * ec_level) :=
  [ (lit "L", ERROR_CORRECT_L);
    (lit "M", ERROR_CORRECT_M);
    (lit "Q", ERROR_CORRECT_Q);
    (lit "H", ERROR_CORRECT_H) ].

Definition MODULE_DRAWERS : list (pystr * module_drawer) :=
  [ (lit "square", SquareModuleDrawer);
    (lit "rounded", RoundedModuleDrawer);
    (lit "gapped", GappedSquareModuleDrawer);
    (lit "circle", CircleModuleDrawer);
    (lit "vertical", VerticalBarsDrawer);
    (lit "horizontal", HorizontalBarsDrawer) ].

Definition COLOR_MASKS : list (pystr * color_mask_class) :=
  [ (lit "radial", RadialGradiantColorMask);
    (lit "square", SquareGradiantColorMask);
    (lit "horizontal", HorizontalGradiantColorMask);
    (lit "vertical", VerticalGradiantColorMask);
    (lit "solid", SolidFillColorMask) ].

(** The parameters of [generate_qr_code]; [**kwargs] is empty. *)
Record request := {
  data : pyval;
  filename : option pystr;
  version : option Z;
  error_correction : pystr;
  box_size : Z;
  border : Z;
  styled : bool;
  drawer_style : pystr;
  color_mask : pystr;
  foreground_color : pystr;
  background_color : pystr
}.

(** A call with [data] alone: every other parameter at its default. *)
Definition default_request (d : pyval) : request := {|
  data := d;
  filename := None;
  version := None;
  error_correction := lit "L";
  box_size := 10;
  border := 4;
  styled := false;
  drawer_style := lit "rounded";
  color_mask := lit "radial";
  foreground_color := lit "black";
  background_color := lit "white"
|}.

(** [data[:50]], evaluated for the first log line of [generate_qr_code]. *)
Definition not_subscriptable (type_name : string) : exn :=
  Exn TypeError (lit "'" ++ lit type_name ++ lit "' object is not subscriptable") None.
Definition getitem_slice50 (v : pyval) : result pyval :=
  match v with
  | PyStr s => Ok (PyStr (take 50 s))
  | PyBytes b => Ok (PyBytes (take 50 b))
  | PyList l => Ok (PyList (take 50 l))
  | PyNone => Raise (not_subscriptable "NoneType")
  | PyBool _ => Raise (not_subscriptable "bool")
  | PyInt _ => Raise (not_subscriptable "int")
  end.

Section Generator.
Context {U : Unicode} (E : Env).

(** *** Operating system and library calls *)

Definition path_exists (p : pystr) : M bool :=
  fun w => (Ok (bool_decide (p ∈ dirs w) || bool_decide (is_Some (files w !! p))), w).

Definition makedirs (p : pystr) : M unit :=
  fun w => match os_makedirs E p with
           | None => (Ok tt, with_dirs ({[ p ]} ∪ dirs w) w)
           | Some e => (Raise e, w)
           end.

(** [with open(p, "w") as f: f.write(text)]: opening creates the file
    or empties it; the text is in the file when the block is left
    without an exception. *)
Definition open_and_write (p text : pystr) : M unit :=
  fun w => match open_w E p with
           | Some e => (Raise e, w)
           | None =>
               let w1 := with_files (<[ p := [] ]> (files w)) w in
               match file_write E p text with
               | Some e => (Raise e, w1)
               | None => (Ok tt, with_files (<[ p := text ]> (files w)) w)
               end
           end.

Definition remove (p : pystr) : M unit :=
  fun w => match os_remove E p with
           | None => (Ok tt, with_files (delete p (files w)) w)
           | Some e => (Raise e, w)
           end.

Definition make (d : pystr) (v : option Z) (level : ec_level) (box brd : Z) : M QRCode :=
  fun w => let w' := with_call (CallEncode d v level box brd) w in
           match qr_make E d v level box brd with
           | Ok m => (Ok {| qr_modules := m; qr_box_size := box; qr_border := brd |}, w')
           | Raise e => (Raise e, w')
           end.

Definition make_image (img : image) : M image :=
  fun w => let w' := with_call (CallMakeImage img) w in
           match qr_make_image E img with
           | None => (Ok img, w')
           | Some e => (Raise e, w')
           end.

Definition save (img : image) (path : pystr) : M unit :=
  fun w => let w' := with_call (CallSave img path) w in
           match img_save E img path with
           | Ok bytes => (Ok tt, with_files (<[ path := bytes ]> (files w')) w')
           | Raise e => (Raise e, w')
           end.

(** *** Methods *)

(** The [try] block of [_validate_and_create_output_dir]. *)
Definition test_file (output_dir : pystr) : pystr :=
  os_path_join output_dir (lit ".permission_test").
Definition create_and_probe (output_dir : pystr) : M unit :=
  let* present := path_exists output_dir in
  (if negb present then makedirs output_dir else ret tt);;;
  open_and_write (test_file output_dir) (lit "test");;;
  remove (test_file output_dir).

Definition _validate_and_create_output_dir (output_dir : pystr) : M unit :=
  try_except
    (create_and_probe output_dir)
    [ (PermissionError, fun e =>
         raise (Exn PermissionError
                    (lit "Insufficient permissions for directory " ++ output_dir) (Some e)));
      (OSError, fun e =>
         raise (Exn FileSystemError (lit "Filesystem error: " ++ str_exn e) (Some e)));
      (Exception, fun e =>
         raise (Exn QRGenerationError (lit "Unexpected error: " ++ str_exn e) (Some e))) ].

(** [QRCodeGenerator(output_dir)], the logger apart. *)
Definition QRCodeGenerator_init (output_dir : pystr) : M unit :=
  _validate_and_create_output_dir output_dir.

Definition _validate_input_data (d : pyval) : M unit :=
  match d with
  | PyStr s =>
      if bool_decide (strip s = []) then
        raise (Exn InputValidationError (lit "Input data cannot be empty") None)
      else ret tt
  | _ => raise (Exn InputValidationError (lit "Input data must be a string") None)
  end.

Definition _generate_filename (d : pystr) (extension : pystr) : pystr :=
  let sanitized :=
    concat (map (fun c =>
                   if isalnum c || (c =? chr "-") || (c =? chr "_")
                   then [c] else lit "_") d) in
  let sanitized := take 50 sanitized in
  lit "qr_" ++ sanitized ++ lit "." ++ extension.

Definition _parse_color (color_str : pystr) : rgb :=
  let color_lower := lower color_str in
  if bool_decide (color_lower = lit "black") then (0, 0, 0)%Z
  else if bool_decide (color_lower = lit "white") then (255, 255, 255)%Z
  else if bool_decide (color_lower = lit "red") then (255, 0, 0)%Z
  else if bool_decide (color_lower = lit "green") then (0, 255, 0)%Z
  else if bool_decide (color_lower = lit "blue") then (0, 0, 255)%Z
  else (0, 0, 0)%Z.

Definition _create_qr_image (qr : QRCode) (styled_ : bool)
    (drawer_style_ color_mask_ foreground_color_ background_color_ : pystr) : M image :=
  try_except
    (if styled_ then
       let* drawer_class :=
         try_except (getitem MODULE_DRAWERS (lower drawer_style_))
           [ (KeyError, fun _ =>
                let available := keys MODULE_DRAWERS in
                raise (Exn InputValidationError
                           (lit "Invalid drawer style: " ++ drawer_style_
                            ++ lit ". Must be one of: " ++ str_of_list available) None)) ] in
       let* mask_obj :=
         try_except
           (if bool_decide (lower color_mask_ = lit "solid") then
              ret (SolidFill (_parse_color background_color_)
                             (_parse_color foreground_color_))
            else
              let* color_mask_class := getitem COLOR_MASKS (lower color_mask_) in
              ret (MaskDefault color_mask_class))
           [ (KeyError, fun _ =>
                let available := keys COLOR_MASKS in
                raise (Exn InputValidationError
                           (lit "Invalid color mask: " ++ color_mask_
                            ++ lit ". Must be one of: " ++ str_of_list available) None)) ] in
       make_image (StyledPilImage qr drawer_class mask_obj)
     else
       make_image (PilImage qr (_parse_color foreground_color_)
                            (_parse_color background_color_)))
    [ (Exception, fun e =>
         raise (Exn QRGenerationError (lit "Image creation failed: " ++ str_exn e) (Some e))) ].

Definition _save_image (img : image) (path : pystr) : M unit :=
  try_except
    (save img path)
    [ (PermissionError, fun e =>
         raise (Exn PermissionError
                    (lit "Cannot save to " ++ path ++ lit ": permission denied") (Some e)));
      (OSError, fun e =>
         raise (Exn FileSystemError
                    (lit "Filesystem error saving image: " ++ str_exn e) (Some e)));
      (Exception, fun e =>
         raise (Exn QRGenerationError (lit "Failed to save image: " ++ str_exn e) (Some e))) ].

(** [generate_qr_code] of a generator whose [output_dir] is given.
    After [_validate_input_data] has returned, [data] is a [str]. *)
Definition generate_qr_code (output_dir : pystr) (r : request) : M pystr :=
  lift (getitem_slice50 (data r));;;
  try_except
    (_validate_input_data (data r);;;
     let* error_correction_level :=
       try_except (getitem ERROR_CORRECTION_MAP (upper (error_correction r)))
         [ (KeyError, fun _ =>
              raise (Exn InputValidationError
                         (lit "Invalid error correction level: " ++ error_correction r
                          ++ lit ". Must be one of: "
                          ++ str_of_list (keys ERROR_CORRECTION_MAP)) None)) ] in
     match data r with
     | PyStr d =>
         let* qr := make d (version r) error_correction_level (box_size r) (border r) in
         let* img := _create_qr_image qr (styled r) (drawer_style r) (color_mask r)
                       (foreground_color r) (background_color r) in
         let output_filename :=
           match filename r with
           | Some (c :: f) => c :: f
           | _ => _generate_filename d (lit "png")
           end in
         let output_path := os_path_join output_dir output_filename in
         _save_image img output_path;;;
         ret output_path
     | _ => raise (Exn InputValidationError (lit "Input data must be a string") None)
     end)
    [ (InputValidationError, fun e => raise e);
      (DataOverflowError, fun e =>
         raise (Exn InputValidationError (lit "Data too large for QR code") (Some e)));
      (KeyboardInterrupt, fun e => raise e);
      (Exception, fun e =>
         raise (Exn QRGenerationError (lit "QR generation failed: " ++ str_exn e) (Some e))) ].

End Generator.

(** ** The specification's wording *)

(** The Filename Synthesizer as the specification words it: replace,
    truncate, then prefix and suffix. *)
Definition allowed_in_filename `{Unicode} (c : N) : bool :=
  isalnum c || bool_decide (c = chr "-") || bool_decide (c = chr "_").
Definition synthesize_spec `{Unicode} (d : pystr) (extension : pystr) : pystr :=
  let replaced := map (fun c => if allowed_in_filename c then c else chr "_") d in
  let truncated := take 50 replaced in
  lit "qr_" ++ (truncated ++ (lit "." ++ extension)).

(** The characters a synthesized name is made of, the dot apart. *)
Definition filename_char `{Unicode} (c : N) : Prop :=
  isalnum c = true \/ c = chr "-" \/ c = chr "_".

(** The table of the specification. *)
Definition COLOR_TABLE : list (pystr * rgb) :=
  [ (lit "black", (0, 0, 0)%Z);
    (lit "white", (255, 255, 255)%Z);
    (lit "red", (255, 0, 0)%Z);
    (lit "green", (0, 255, 0)%Z);
    (lit "blue", (0, 0, 255)%Z) ].

(** Look [name] up in the table without regard to case; black when it
    is not there. *)
Definition resolve_spec `{Unicode} (name : pystr) : rgb :=
  default (0, 0, 0)%Z (dict_get COLOR_TABLE (lower name)).

(** ** Definitions for the statements *)

(** What [generate_qr_code] raises when [_create_qr_image] has raised
    [e0] inside its [try] block: [e0] wrapped by the [except Exception]
    clause of [_create_qr_image], wrapped again by the [except Exception]
    clause of [generate_qr_code]. *)
Definition wrapped_twice `{Unicode} (e0 : exn) : exn :=
  let e1 := Exn QRGenerationError (lit "Image creation failed: " ++ str_exn e0) (Some e0) in
  Exn QRGenerationError (lit "QR generation failed: " ++ str_exn e1) (Some e1).

Definition invalid_drawer_style (name : pystr) : exn :=
  Exn InputValidationError
      (lit "Invalid drawer style: " ++ name ++ lit ". Must be one of: "
       ++ lit "['square', 'rounded', 'gapped', 'circle', 'vertical', 'horizontal']") None.

Definition invalid_color_mask (name : pystr) : exn :=
  Exn InputValidationError
      (lit "Invalid color mask: " ++ name ++ lit ". Must be one of: "
       ++ lit "['radial', 'square', 'horizontal', 'vertical', 'solid']") None.

Definition is_str (v : pyval) : bool :=
  match v with
  | PyStr _ => true
  | _ => false
  end.

(** [data[:50]] is defined for sequences only. *)
Definition subscriptable (v : pyval) : bool :=
  match v with
  | PyStr _ | PyBytes _ | PyList _ => true
  | PyNone | PyBool _ | PyInt _ => false
  end.

(** The path [generate_qr_code] saves to. *)
Definition output_path `{Unicode} (output_dir : pystr) (r : request) (d : pystr) : pystr :=
  os_path_join output_dir
    match filename r with
    | Some (c :: f) => c :: f
    | _ => _generate_filename d (lit "png")
    end.

(** The image of an unstyled request. *)
Definition plain_image `{Unicode} (r : request) (m : list (list bool)) : image :=
  PilImage {| qr_modules := m; qr_box_size := box_size r; qr_border := border r |}
           (_parse_color (foreground_color r)) (_parse_color (background_color r)).

(** The [try] block of [_validate_and_create_output_dir] gets as far as
    creating the probe file: the directory is there or [os.makedirs]
    returns, and [open] returns. *)
Definition probe_created (E : Env) (output_dir : pystr) (w : world) : bool :=
  (bool_decide (output_dir ∈ dirs w) || bool_decide (is_Some (files w !! output_dir))
   || match os_makedirs E output_dir with None => true | Some _ => false end)
  && match open_w E (test_file output_dir) with None => true | Some _ => false end.

(** Requests that differ from a given one in some parameters. *)
Definition with_error_correction (ec : pystr) (r : request) : request := {|
  data := data r;
  filename := filename r;
  version := version r;
  error_correction := ec;
  box_size := box_size r;
  border := border r;
  styled := styled r;
  drawer_style := drawer_style r;
  color_mask := color_mask r;
  foreground_color := foreground_color r;
  background_color := background_color r
|}.

(** [styled=True] with the given drawer and mask names. *)
Definition with_style (ds cm : pystr) (r : request) : request := {|
  data := data r;
  filename := filename r;
  version := version r;
  error_correction := error_correction r;
  box_size := box_size r;
  border := border r;
  styled := true;
  drawer_style := ds;
  color_mask := cm;
  foreground_color := foreground_color r;
  background_color := background_color r
|}.

(** The request with other spellings of the three enumerated names. *)
Definition with_names (ec ds cm : pystr) (r : request) : request := {|
  data := data r;
  filename := filename r;
  version := version r;
  error_correction := ec;
  box_size := box_size r;
  border := border r;
  styled := styled r;
  drawer_style := ds;
  color_mask := cm;
  foreground_color := foreground_color r;
  background_color := background_color r
|}.

(** ** Worlds and collaborators to run the model on *)

Definition empty_world : world := {| dirs := ∅; files := ∅; calls := [] |}.

(** The first bytes of every PNG file. *)
Definition png_signature : list N := [137; 80; 78; 71; 13; 10; 26; 10].

(** Every call returns. *)
Definition all_succeed : Env := {|
  qr_make := fun _ _ _ _ _ => Ok [[true]];
  qr_make_image := fun _ => None;
  img_save := fun _ _ => Ok png_signature;
  os_makedirs := fun _ => None;
  open_w := fun _ => None;
  file_write := fun _ _ => None;
  os_remove := fun _ => None
|}.

Definition blank_request : request := default_request (PyStr (lit "   ")).

Definition oversized_request : request := {|
  data := PyStr (repeat (chr "a") 5000);
  filename := None;
  version := Some 1%Z;
  error_correction := lit "H";
  box_size := 10;
  border := 4;
  styled := false;
  drawer_style := lit "rounded";
  color_mask := lit "radial";
  foreground_color := lit "black";
  background_color := lit "white"
|}.

Definition triangle_request : request :=
  with_style (lit "triangle") (lit "radial") (default_request (PyStr (lit "test"))).

(** The encoder finds the data too large at every version. *)
Definition overflowing : Env := {|
  qr_make := fun _ _ _ _ _ => Raise (Exn DataOverflowError [] None);
  qr_make_image := fun _ => None;
  img_save := fun _ _ => Ok png_signature;
  os_makedirs := fun _ => None;
  open_w := fun _ => None;
  file_write := fun _ _ => None;
  os_remove := fun _ => None
|}.

(** The output directory is there and is read-only: opening a file for
    writing in it, and saving an image to it, is refused. *)
Definition EACCES : exn :=
  Exn builtins_PermissionError (lit "[Errno 13] Permission denied") None.

Definition read_only_directory : Env := {|
  qr_make := fun _ _ _ _ _ => Ok [[true]];
  qr_make_image := fun _ => None;
  img_save := fun _ _ => Raise EACCES;
  os_makedirs := fun _ => None;
  open_w := fun _ => Some EACCES;
  file_write := fun _ _ => None;
  os_remove := fun _ => None
|}.

Definition qr_codes_exists : world :=
  {| dirs := {[ lit "qr_codes" ]}; files := ∅; calls := [] |}.

(** The directory is there and the disk is full: the probe file is
    created, and writing to it fails. *)
Definition ENOSPC : exn := Exn OSError (lit "[Errno 28] No space left on device") None.

Definition disk_full : Env := {|
  qr_make := fun _ _ _ _ _ => Ok [[true]];
  qr_make_image := fun _ => None;
  img_save := fun _ _ => Raise ENOSPC;
  os_makedirs := fun _ => None;
  open_w := fun _ => None;
  file_write := fun _ _ => Some ENOSPC;
  os_remove := fun _ => None
|}.

(** ** More definitions for the statements *)

(** One character of a synthesized name: the character itself when it
    is alphanumeric, [-] or [_], and [_] otherwise. *)
Definition sanitize_char `{Unicode} (c : N) : N :=
  if allowed_in_filename c then c else chr "_".

Definition with_filename (f : option pystr) (r : request) : request := {|
  data := data r;
  filename := f;
  version := version r;
  error_correction := error_correction r;
  box_size := box_size r;
  border := border r;
  styled := styled r;
  drawer_style := drawer_style r;
  color_mask := color_mask r;
  foreground_color := foreground_color r;
  background_color := background_color r
|}.

Definition with_colors (fg bg : pystr) (r : request) : request := {|
  data := data r;
  filename := filename r;
  version := version r;
  error_correction := error_correction r;
  box_size := box_size r;
  border := border r;
  styled := styled r;
  drawer_style := drawer_style r;
  color_mask := color_mask r;
  foreground_color := fg;
  background_color := bg
|}.

(** The [QRCode] object [generate_qr_code] gets from the encoder. *)
Definition qr_of (r : request) (m : list (list bool)) : QRCode :=
  {| qr_modules := m; qr_box_size := box_size r; qr_border := border r |}.

(** The [CallEncode] record of a request. *)
Definition encode_call (r : request) (d : pystr) (level : ec_level) : call :=
  CallEncode d (version r) level (box_size r) (border r).

(** The four [except] clauses of [generate_qr_code], applied to an
    exception [e] raised in its [try] block. *)
Definition generate_outcome `{Unicode} (e : exn) : exn :=
  if isinstance e InputValidationError then e
  else if isinstance e DataOverflowError then
    Exn InputValidationError (lit "Data too large for QR code") (Some e)
  else if isinstance e KeyboardInterrupt then e
  else if isinstance e Exception then
    Exn QRGenerationError (lit "QR generation failed: " ++ str_exn e) (Some e)
  else e.

(** The image [_create_qr_image] asks the renderer for, or the
    [InputValidationError] it raises before asking: the part of
    [_create_qr_image] before the call of [qr.make_image]. *)
Definition requested_image `{Unicode} (qr : QRCode) (styled_ : bool)
    (drawer_style_ color_mask_ foreground_color_ background_color_ : pystr) : result image :=
  if styled_ then
    match dict_get MODULE_DRAWERS (lower drawer_style_) with
    | None => Raise (invalid_drawer_style drawer_style_)
    | Some drawer =>
        if bool_decide (lower color_mask_ = lit "solid") then
          Ok (StyledPilImage qr drawer
                (SolidFill (_parse_color background_color_) (_parse_color foreground_color_)))
        else
          match dict_get COLOR_MASKS (lower color_mask_) with
          | None => Raise (invalid_color_mask color_mask_)
          | Some cls => Ok (StyledPilImage qr drawer (MaskDefault cls))
          end
    end
  else Ok (PilImage qr (_parse_color foreground_color_) (_parse_color background_color_)).

(** The [except Exception] clause of [_create_qr_image], applied to an
    exception [e] raised in its [try] block. *)
Definition image_outcome `{Unicode} (e : exn) : exn :=
  if isinstance e Exception then
    Exn QRGenerationError (lit "Image creation failed: " ++ str_exn e) (Some e)
  else e.

(** The three [except] clauses of [_save_image]. *)
Definition save_outcome `{Unicode} (path : pystr) (e : exn) : exn :=
  if isinstance e PermissionError then
    Exn PermissionError (lit "Cannot save to " ++ path ++ lit ": permission denied") (Some e)
  else if isinstance e OSError then
    Exn FileSystemError (lit "Filesystem error saving image: " ++ str_exn e) (Some e)
  else if isinstance e Exception then
    Exn QRGenerationError (lit "Failed to save image: " ++ str_exn e) (Some e)
  else e.

(** The three [except] clauses of [_validate_and_create_output_dir]. *)
Definition validate_outcome `{Unicode} (output_dir : pystr) (e : exn) : exn :=
  if isinstance e PermissionError then
    Exn PermissionError (lit "Insufficient permissions for directory " ++ output_dir) (Some e)
  else if isinstance e OSError then
    Exn FileSystemError (lit "Filesystem error: " ++ str_exn e) (Some e)
  else if isinstance e Exception then
    Exn QRGenerationError (lit "Unexpected error: " ++ str_exn e) (Some e)
  else e.

(** The image of a request whose encoding gave the matrix [m]. *)
Definition image_of `{Unicode} (r : request) (m : list (list bool)) : result image :=
  requested_image (qr_of r m) (styled r) (drawer_style r) (color_mask r)
    (foreground_color r) (background_color r).

(** ** The command line: [get_interactive_input] and [main]

    The terminal is the list of what each call of [input()] meets: a
    line typed by the user, or an interrupt.  At the end of the list
    [input()] raises [EOFError].  [print] is not modelled, and
    [parse_arguments] is taken by its result, the namespace. *)

Inductive stdin_event :=
  | Line (text : pystr)
  | Interrupt.

(** What can be raised at the command line: an exception of the classes
    above, [EOFError], or [SystemExit] with its code. *)
Inductive cli_exn :=
  | Of (e : exn)
  | EOFError
  | SystemExit (code : Z).

Inductive outcome (A : Type) :=
  | Returns (a : A)
  | Raises (e : cli_exn).
Arguments Returns {A} a.
Arguments Raises {A} e.

Definition IO (A : Type) : Type := list stdin_event -> outcome A * list stdin_event.

Definition io_ret {A} (a : A) : IO A := fun s => (Returns a, s).
Definition io_bind {A B} (m : IO A) (k : A -> IO B) : IO B :=
  fun s => match m s with
           | (Returns a, s') => k a s'
           | (Raises e, s') => (Raises e, s')
           end.

Notation "'let+' x ':=' m 'in' k" := (io_bind m (fun x => k))
  (at level 10, x name, m at level 100, k at level 200).

Definition keyboard_interrupt : exn := Exn KeyboardInterrupt [] None.

(** [input(prompt)]. *)
Definition input : IO pystr :=
  fun s => match s with
           | [] => (Raises EOFError, [])
           | Line text :: s' => (Returns text, s')
           | Interrupt :: s' => (Raises (Of keyboard_interrupt), s')
           end.

(** The dict [get_interactive_input] returns.  The last four keys are
    set only on some paths. *)
Module Inputs.
Record t := {
  data : pystr;
  filename : option pystr;
  output_dir : pystr;
  version : option Z;
  error_correction : pystr;
  box_size : Z;
  border : Z;
  styled : bool;
  drawer_style : option pystr;
  color_mask : option pystr;
  foreground_color : option pystr;
  background_color : option pystr
}.
End Inputs.

(** The namespace of [parse_arguments].  The last four attributes are
    not options of the parser: only the merge of the interactive answers
    in [main] sets them. *)
Module Namespace.
Record t := {
  data : option pystr;
  interactive : bool;
  filename : option pystr;
  output_dir : pystr;
  version : option Z;
  error_correction : pystr;
  box_size : Z;
  border : Z;
  styled : bool;
  drawer : pystr;
  color : pystr;
  foreground : pystr;
  background : pystr;
  drawer_style : option pystr;
  color_mask : option pystr;
  foreground_color : option pystr;
  background_color : option pystr
}.
End Namespace.

(** [k in d] for a dict [d]. *)
Definition has_key {V} (d : list (pystr * V)) (k : pystr) : bool :=
  match dict_get d k with
  | Some _ => true
  | None => false
  end.

Section CommandLine.
Context {U : Unicode} (E : Env).
(** [int(text)]: the integer, or the [ValueError] raised. *)
Variable int_ : pystr -> result Z.
(** [_setup_logger()]: [None] when it returns. *)
Variable setup_logger : option exn.

Definition to_int (text : pystr) : IO Z :=
  fun s => match int_ text with
           | Ok z => (Returns z, s)
           | Raise e => (Raises (Of e), s)
           end.

(** The [while True] loop of [get_interactive_input]: lines are read
    until one is not blank. *)
Fixpoint read_data (s : list stdin_event) : outcome pystr * list stdin_event :=
  match s with
  | [] => (Raises EOFError, [])
  | Interrupt :: s' => (Raises (Of keyboard_interrupt), s')
  | Line text :: s' =>
      if bool_decide (strip text = []) then read_data s' else (Returns (strip text), s')
  end.

Definition get_interactive_input : IO Inputs.t :=
  let+ data_ := read_data in
  let+ text := input in
  let filename_ := if bool_decide (strip text = []) then None else Some (strip text) in
  let+ text := input in
  let output_dir_ := if bool_decide (strip text = []) then lit "qr_codes" else strip text in
  let+ text := input in
  let+ version_ :=
    (if bool_decide (strip text = []) then io_ret None
     else let+ z := to_int (strip text) in io_ret (Some z)) in
  let+ text := input in
  let ec := upper (strip text) in
  let error_correction_ :=
    if bool_decide (ec ∈ [lit "L"; lit "M"; lit "Q"; lit "H"]) then ec else lit "L" in
  let+ text := input in
  let+ box_size_ :=
    (if bool_decide (strip text = []) then io_ret 10%Z else to_int (strip text)) in
  let+ text := input in
  let+ border_ :=
    (if bool_decide (strip text = []) then io_ret 4%Z else to_int (strip text)) in
  let+ text := input in
  let style_input := lower (strip text) in
  let styled_ := bool_decide (style_input ∈ [lit "y"; lit "yes"]) in
  if styled_ then
    let+ text := input in
    let ds := lower (strip text) in
    let drawer_style_ := if has_key MODULE_DRAWERS ds then ds else lit "rounded" in
    let+ text := input in
    let cm := lower (strip text) in
    let color_mask_ := if has_key COLOR_MASKS cm then cm else lit "radial" in
    if bool_decide (color_mask_ = lit "solid") then
      let+ text := input in
      let foreground_color_ := lower (strip text) in
      let+ text := input in
      let background_color_ := lower (strip text) in
      io_ret {| Inputs.data := data_; Inputs.filename := filename_;
                Inputs.output_dir := output_dir_; Inputs.version := version_;
                Inputs.error_correction := error_correction_;
                Inputs.box_size := box_size_; Inputs.border := border_;
                Inputs.styled := true;
                Inputs.drawer_style := Some drawer_style_;
                Inputs.color_mask := Some color_mask_;
                Inputs.foreground_color := Some foreground_color_;
                Inputs.background_color := Some background_color_ |}
    else
      io_ret {| Inputs.data := data_; Inputs.filename := filename_;
                Inputs.output_dir := output_dir_; Inputs.version := version_;
                Inputs.error_correction := error_correction_;
                Inputs.box_size := box_size_; Inputs.border := border_;
                Inputs.styled := true;
                Inputs.drawer_style := Some drawer_style_;
                Inputs.color_mask := Some color_mask_;
                Inputs.foreground_color := None;
                Inputs.background_color := None |}
  else
    io_ret {| Inputs.data := data_; Inputs.filename := filename_;
              Inputs.output_dir := output_dir_; Inputs.version := version_;
              Inputs.error_correction := error_correction_;
              Inputs.box_size := box_size_; Inputs.border := border_;
              Inputs.styled := false;
              Inputs.drawer_style := None;
              Inputs.color_mask := None;
              Inputs.foreground_color := None;
              Inputs.background_color := None |}.

(** The loop of [main] that sets every key of the interactive answers
    as an attribute of the namespace; a key that is not in the dict
    leaves its attribute alone. *)
Definition merge (args : Namespace.t) (i : Inputs.t) : Namespace.t := {|
  Namespace.data := Some (Inputs.data i);
  Namespace.interactive := Namespace.interactive args;
  Namespace.filename := Inputs.filename i;
  Namespace.output_dir := Inputs.output_dir i;
  Namespace.version := Inputs.version i;
  Namespace.error_correction := Inputs.error_correction i;
  Namespace.box_size := Inputs.box_size i;
  Namespace.border := Inputs.border i;
  Namespace.styled := Inputs.styled i;
  Namespace.drawer := Namespace.drawer args;
  Namespace.color := Namespace.color args;
  Namespace.foreground := Namespace.foreground args;
  Namespace.background := Namespace.background args;
  Namespace.drawer_style :=
    match Inputs.drawer_style i with Some v => Some v | None => Namespace.drawer_style args end;
  Namespace.color_mask :=
    match Inputs.color_mask i with Some v => Some v | None => Namespace.color_mask args end;
  Namespace.foreground_color :=
    match Inputs.foreground_color i with
    | Some v => Some v
    | None => Namespace.foreground_color args
    end;
  Namespace.background_color :=
    match Inputs.background_color i with
    | Some v => Some v
    | None => Namespace.background_color args
    end
|}.

(** The keyword arguments [main] passes to [generate_qr_code]. *)
Definition request_of_args (args : Namespace.t) : request := {|
  data := match Namespace.data args with Some d => PyStr d | None => PyNone end;
  filename := Namespace.filename args;
  version := Namespace.version args;
  error_correction := Namespace.error_correction args;
  box_size := Namespace.box_size args;
  border := Namespace.border args;
  styled := Namespace.styled args;
  drawer_style := Namespace.drawer args;
  color_mask := Namespace.color args;
  foreground_color := Namespace.foreground args;
  background_color := Namespace.background args
|}.

(** [args.interactive or not args.data]. *)
Definition asks_user (args : Namespace.t) : bool :=
  Namespace.interactive args
  || match Namespace.data args with
     | None | Some [] => true
     | Some (_ :: _) => false
     end.

(** [QRCodeGenerator(output_dir=...)] with its logger. *)
Definition QRCodeGenerator_new (output_dir : pystr) : M unit :=
  match setup_logger with
  | Some e => raise e
  | None => QRCodeGenerator_init E output_dir
  end.

(** The [try] block of [main], after [parse_arguments] has returned
    [args]: the path of the image when it returns. *)
Definition main_body (args : Namespace.t) (s : list stdin_event) (w : world)
  : outcome pystr * list stdin_event * world :=
  let '(merged, s1) :=
    if asks_user args then
      match get_interactive_input s with
      | (Returns user_inputs, s1) => (Returns (merge args user_inputs), s1)
      | (Raises e, s1) => (Raises e, s1)
      end
    else (Returns args, s) in
  match merged with
  | Raises e => (Raises e, s1, w)
  | Returns args1 =>
      match QRCodeGenerator_new (Namespace.output_dir args1) w with
      | (Raise e, w1) => (Raises (Of e), s1, w1)
      | (Ok _, w1) =>
          match generate_qr_code E (Namespace.output_dir args1) (request_of_args args1) w1 with
          | (Raise e, w2) => (Raises (Of e), s1, w2)
          | (Ok qr_path, w2) => (Returns qr_path, s1, w2)
          end
      end
  end.

(** The [except] clauses of [main]; [sys.exit(code)] raises
    [SystemExit]. *)
Definition main_except (e : cli_exn) : cli_exn :=
  match e with
  | Of x =>
      if isinstance x InputValidationError then SystemExit 1
      else if isinstance x QRGenerationError then SystemExit 1
      else if isinstance x KeyboardInterrupt then SystemExit 0
      else if isinstance x Exception then SystemExit 1
      else e
  | EOFError => SystemExit 1
  | SystemExit _ => e
  end.

Definition main (args : Namespace.t) (s : list stdin_event) (w : world)
  : outcome unit * list stdin_event * world :=
  match main_body args s w with
  | (Returns _, s', w') => (Returns tt, s', w')
  | (Raises e, s', w') => (Raises (main_except e), s', w')
  end.

End CommandLine.

(** ** More worlds and collaborators to run the model on *)

(** An [int] for running the model on unsigned decimal numerals; every
    other text is refused here. *)
Definition decimal (text : pystr) : result Z :=
  match text with
  | [] => Raise (Exn ValueError (lit "invalid literal for int() with base 10: ''") None)
  | _ :: _ =>
      if forallb ascii_isdigit text then
        Ok (fold_left (fun acc c => (10 * acc + Z.of_N (c - 48))%Z) text 0%Z)
      else
        Raise (Exn ValueError
                   (lit "invalid literal for int() with base 10: " ++ @repr ascii_only text) None)
  end.

(** The namespace of a command line that gives the data at most: every
    option at the default of the parser. *)
Definition parsed_defaults (d : option pystr) : Namespace.t := {|
  Namespace.data := d;
  Namespace.interactive := false;
  Namespace.filename := None;
  Namespace.output_dir := lit "qr_codes";
  Namespace.version := None;
  Namespace.error_correction := lit "L";
  Namespace.box_size := 10;
  Namespace.border := 4;
  Namespace.styled := false;
  Namespace.drawer := lit "rounded";
  Namespace.color := lit "radial";
  Namespace.foreground := lit "black";
  Namespace.background := lit "white";
  Namespace.drawer_style := None;
  Namespace.color_mask := None;
  Namespace.foreground_color := None;
  Namespace.background_color := None
|}.

(** The user interrupts the encoder. *)
Definition interrupted : Env := {|
  qr_make := fun _ _ _ _ _ => Raise keyboard_interrupt;
  qr_make_image := fun _ => None;
  img_save := fun _ _ => Ok png_signature;
  os_makedirs := fun _ => None;
  open_w := fun _ => None;
  file_write := fun _ _ => None;
  os_remove := fun _ => None
|}.

(** The output directory cannot be created. *)
Definition no_makedirs : Env := {|
  qr_make := fun _ _ _ _ _ => Ok [[true]];
  qr_make_image := fun _ => None;
  img_save := fun _ _ => Ok png_signature;
  os_makedirs := fun _ => Some EACCES;
  open_w := fun _ => None;
  file_write := fun _ _ => None;
  os_remove := fun _ => None
|}.

(** Two sets of interactive answers that agree on everything but the
    drawer style, the colour mask and the two colours. *)
Definition same_but_style (i j : Inputs.t) : Prop :=
  Inputs.data i = Inputs.data j
  /\ Inputs.filename i = Inputs.filename j
  /\ Inputs.output_dir i = Inputs.output_dir j
  /\ Inputs.version i = Inputs.version j
  /\ Inputs.error_correction i = Inputs.error_correction j
  /\ Inputs.box_size i = Inputs.box_size j
  /\ Inputs.border i = Inputs.border j
  /\ Inputs.styled i = Inputs.styled j.

(** Requests and terminals to run the model on. *)
Definition hello_request : request := default_request (PyStr (lit "hello")).

Definition absolute_request : request :=
  with_filename (Some (lit "/tmp/code.png")) hello_request.

Definition solid_request : request :=
  with_colors (lit "red") (lit "white")
    (with_style (lit "Rounded") (lit "SOLID") hello_request).

Definition radial_request : request :=
  with_style (lit "circle") (lit "radial") hello_request.

(** The user types the data after a blank line, keeps the defaults up
    to the style, and asks for a circle drawer with a solid mask, red on
    white. *)
Definition styled_session : list stdin_event :=
  map Line [lit "  "; lit " hello "; lit ""; lit ""; lit "5"; lit "q"; lit ""; lit "";
            lit "YES"; lit "Circle"; lit "solid"; lit "Red"; lit "white"].

(** The same answers, with a styled code of the default drawer and mask. *)
Definition default_style_session : list stdin_event :=
  map Line [lit " hello "; lit ""; lit ""; lit "5"; lit "q"; lit ""; lit "";
            lit "y"; lit ""; lit ""].

(** ** Strings and exception classes *)

(** On an ASCII string the case conversions are the ASCII ones, whatever
    the Unicode database. *)
Lemma lower_ascii `{Unicode} (s : pystr) :
  forallb is_ascii s = true -> lower s = map ascii_lower s.
Proof. intro Hs. unfold lower. rewrite Hs. reflexivity. Qed.

Lemma upper_ascii `{Unicode} (s : pystr) :
  forallb is_ascii s = true -> upper s = map ascii_upper s.
Proof. intro Hs. unfold upper. rewrite Hs. reflexivity. Qed.

(** Five steps up the bases reach the root from every class, so [mro]
    lists all the classes an instance belongs to. *)
Lemma mro_reaches_root (c : exc_class) : last (mro c) = Some BaseException.
Proof. destruct c; reflexivity. Qed.

Lemma issubclass_base (c b d : exc_class) :
  base c = Some b -> issubclass b d = true -> issubclass c d = true.
Proof. destruct c, d; simpl; intros [= <-]; vm_compute; congruence. Qed.

(** ** The Filename Synthesizer *)

Section Filename.
Context {U : Unicode}.

Lemma allowed_in_filename_eqb c :
  isalnum c || (c =? chr "-") || (c =? chr "_") = allowed_in_filename c.
Proof.
  unfold allowed_in_filename.
  f_equal; [f_equal|].
  - destruct (N.eqb_spec c (chr "-")) as [->|Hne]; [reflexivity|].
    symmetry; apply bool_decide_eq_false; exact Hne.
  - destruct (N.eqb_spec c (chr "_")) as [->|Hne]; [reflexivity|].
    symmetry; apply bool_decide_eq_false; exact Hne.
Qed.

Lemma join_of_singletons (f : N -> N) (g : N -> bool) (d : pystr) :
  concat (map (fun c => if g c then [c] else [f c]) d)
  = map (fun c => if g c then c else f c) d.
Proof.
  induction d as [|c d IH]; simpl; [reflexivity|].
  rewrite IH. destruct (g c); reflexivity.
Qed.

Lemma generate_filename_unfold d ext :
  _generate_filename d ext = synthesize_spec d ext.
Proof.
  unfold _generate_filename, synthesize_spec.
  change (lit "_") with [chr "_"].
  rewrite (map_ext _ (fun c => if allowed_in_filename c then [c] else [chr "_"])).
  2:{ intro c. rewrite allowed_in_filename_eqb. reflexivity. }
  rewrite (join_of_singletons (fun _ => chr "_") allowed_in_filename).
  reflexivity.
Qed.

Lemma allowed_filename_char c : allowed_in_filename c = true -> filename_char c.
Proof.
  unfold allowed_in_filename, filename_char. intro H.
  apply orb_true_iff in H as [H|H]; [apply orb_true_iff in H as [H|H]|].
  - left; exact H.
  - right; left. apply bool_decide_eq_true in H; exact H.
  - right; right. apply bool_decide_eq_true in H; exact H.
Qed.

Lemma replaced_chars d :
  Forall filename_char (map (fun c => if allowed_in_filename c then c else chr "_") d).
Proof.
  induction d as [|c d IH]; simpl; constructor; [|exact IH].
  destruct (allowed_in_filename c) eqn:Hc.
  - apply allowed_filename_char; exact Hc.
  - right; right; reflexivity.
Qed.

Lemma filename_char_not_dot c : filename_char c -> c <> chr ".".
Proof.
  intros [H|[->| ->]]; [|discriminate|discriminate].
  intros ->. vm_compute in H. discriminate.
Qed.

Lemma count_dot_zero (l : pystr) :
  Forall filename_char l -> count_occ N.eq_dec l (chr ".") = 0%nat.
Proof.
  intro H. apply count_occ_not_In. intro Hin.
  rewrite Forall_forall in H.
  apply (filename_char_not_dot (chr ".")); [|reflexivity].
  apply H. apply list_elem_of_In. exact Hin.
Qed.

(** C4. [_generate_filename(data, extension)] is the function the
    specification describes: every character that is not alphanumeric,
    [-] or [_] is replaced by [_], the result is cut at 50 characters,
    and [qr_] and [.extension] are put around it.  So, for every [data],
    the name made with extension [png] is at most
    [len("qr_") + 50 + len(".png")] characters long, holds only
    alphanumerics, [-], [_] and [.], and holds exactly one [.]. *)
Theorem generate_filename_synthesize (d extension : pystr) :
  _generate_filename d extension = synthesize_spec d extension
  /\ (length (_generate_filename d (lit "png"))
      <= length (lit "qr_") + 50 + length (lit ".png"))%nat
  /\ Forall (fun c => filename_char c \/ c = chr ".") (_generate_filename d (lit "png"))
  /\ count_occ N.eq_dec (_generate_filename d (lit "png")) (chr ".") = 1%nat.
Proof.
  split; [apply generate_filename_unfold|].
  rewrite generate_filename_unfold. unfold synthesize_spec.
  set (replaced := map (fun c => if allowed_in_filename c then c else chr "_") d).
  assert (Hrep : Forall filename_char (take 50 replaced)).
  { apply Forall_take, replaced_chars. }
  split; [|split].
  - rewrite !length_app, length_take.
    change (length (lit "qr_")) with 3%nat.
    change (length (lit ".")) with 1%nat.
    change (length (lit "png")) with 3%nat.
    change (length (lit ".png")) with 4%nat. lia.
  - apply Forall_app; split; [|apply Forall_app; split].
    + repeat constructor; left; vm_compute;
        first [left; reflexivity | right; right; reflexivity].
    + eapply Forall_impl; [exact Hrep|]. intros c Hc; left; exact Hc.
    + repeat constructor;
        first [right; reflexivity | left; left; vm_compute; reflexivity].
  - rewrite !count_occ_app, (count_dot_zero _ Hrep). reflexivity.
Qed.

End Filename.

(** ** The Color Resolver *)

Lemma dict_get_None {V} (d : list (pystr * V)) (k : pystr) :
  k ∉ keys d -> dict_get d k = None.
Proof.
  induction d as [|[k' v] d IH]; simpl; [reflexivity|].
  intro Hk. apply not_elem_of_cons in Hk as [Hne Hk].
  rewrite bool_decide_eq_false_2 by congruence.
  apply IH, Hk.
Qed.

Lemma dict_get_Some_key {V} (d : list (pystr * V)) (k : pystr) (v : V) :
  dict_get d k = Some v -> k ∈ keys d.
Proof.
  induction d as [|[k' v'] d IH]; simpl; [discriminate|].
  case_bool_decide as Hk.
  - intros _. subst k'. apply list_elem_of_here.
  - intro Hd. apply list_elem_of_further, IH, Hd.
Qed.

Lemma bool_decide_flip (a b : pystr) : bool_decide (a = b) = bool_decide (b = a).
Proof. apply bool_decide_ext; split; intro; congruence. Qed.

(** C7. [_parse_color(name)] looks the lower-cased name up in the table
    black, white, red, green, blue of the specification; for a name that
    is not in the table it returns (0,0,0).  It is a function to RGB
    triples: no call of it raises. *)
Theorem parse_color_resolve `{Unicode} (name : pystr) :
  _parse_color name = resolve_spec name
  /\ (lower name ∉ keys COLOR_TABLE -> _parse_color name = (0, 0, 0)%Z).
Proof.
  assert (Hspec : _parse_color name = resolve_spec name).
  { unfold _parse_color, resolve_spec, COLOR_TABLE. simpl.
    rewrite !(bool_decide_flip (lit _) (lower name)).
    repeat case_bool_decide; reflexivity. }
  split; [exact Hspec|].
  intro Hk. rewrite Hspec. unfold resolve_spec.
  rewrite dict_get_None by exact Hk. reflexivity.
Qed.

Lemma parse_color_resolve_witness :
  @_parse_color ascii_only (lit "Purple") = (0, 0, 0)%Z.
Proof.
  apply (@parse_color_resolve ascii_only (lit "Purple")).
  vm_compute. intro Hin.
  repeat (apply elem_of_cons in Hin as [Hin|Hin]; [discriminate Hin|]).
  apply elem_of_nil in Hin. exact Hin.
Defined.

(** ** The validation gate *)

Section Strip.
Context {U : Unicode}.

Lemma lstrip_nil_iff (s : pystr) : lstrip s = [] <-> forallb isspace s = true.
Proof.
  induction s as [|c s IH]; simpl; [tauto|].
  destruct (isspace c); simpl; [exact IH|].
  split; discriminate.
Qed.

Lemma lstrip_head (s : pystr) :
  match lstrip s with
  | [] => True
  | c :: _ => isspace c = false
  end.
Proof.
  induction s as [|c s IH]; simpl; [exact I|].
  destruct (isspace c) eqn:Hc; [exact IH|exact Hc].
Qed.

(** The trimmed string is empty exactly when the string holds nothing
    but white space. *)
Lemma strip_nil_iff (s : pystr) : strip s = [] <-> forallb isspace s = true.
Proof.
  unfold strip, rstrip. split.
  - intro Hs.
    assert (Hl : lstrip (rev (lstrip s)) = []).
    { apply (f_equal (@rev N)) in Hs. rewrite rev_involutive in Hs. exact Hs. }
    apply lstrip_nil_iff in Hl.
    pose proof (lstrip_head s) as Hh.
    destruct (lstrip s) as [|c t] eqn:Ht; [apply lstrip_nil_iff; exact Ht|].
    rewrite forallb_forall in Hl.
    rewrite (Hl c) in Hh; [discriminate|].
    apply in_rev. rewrite rev_involutive. left; reflexivity.
  - intro Hs. apply lstrip_nil_iff in Hs. rewrite Hs. reflexivity.
Qed.
End Strip.

Lemma error_correction_keys `{Unicode} :
  str_of_list (keys ERROR_CORRECTION_MAP) = lit "['L', 'M', 'Q', 'H']".
Proof. reflexivity. Qed.

Lemma module_drawer_keys `{Unicode} :
  str_of_list (keys MODULE_DRAWERS)
  = lit "['square', 'rounded', 'gapped', 'circle', 'vertical', 'horizontal']".
Proof. reflexivity. Qed.

Lemma color_mask_keys `{Unicode} :
  str_of_list (keys COLOR_MASKS)
  = lit "['radial', 'square', 'horizontal', 'vertical', 'solid']".
Proof. reflexivity. Qed.

(** C6. Validation is the first gate of [generate_qr_code].  For a
    string [data] that is empty once trimmed the call raises
    [InputValidationError]; for an [error_correction] whose upper-cased
    form is not a key of [ERROR_CORRECTION_MAP] it raises
    [InputValidationError], and, [data] having passed its own check, the
    message lists the four levels.  In both cases the world is the one
    the call started in: the encoder was not called and no file was
    written. *)
Theorem validation_is_first_gate `{Unicode} (E : Env) (output_dir : pystr)
    (r : request) (w : world) (s : pystr) :
  data r = PyStr s ->
  (strip s = [] ->
   generate_qr_code E output_dir r w
   = (Raise (Exn InputValidationError (lit "Input data cannot be empty") None), w))
  /\ (dict_get ERROR_CORRECTION_MAP (upper (error_correction r)) = None ->
      exists e,
        generate_qr_code E output_dir r w = (Raise e, w)
        /\ exn_class e = InputValidationError
        /\ (strip s <> [] ->
            e = Exn InputValidationError
                    (lit "Invalid error correction level: " ++ error_correction r
                     ++ lit ". Must be one of: ['L', 'M', 'Q', 'H']") None)).
Proof.
  intro Hdata. split.
  - intro Hs.
    unfold generate_qr_code, bind, try_except, lift. rewrite Hdata. simpl.
    unfold _validate_input_data. rewrite bool_decide_eq_true_2 by exact Hs.
    reflexivity.
  - intro Hec.
    unfold generate_qr_code, bind, try_except, lift. rewrite Hdata. simpl.
    unfold _validate_input_data, getitem. rewrite Hec.
    case_bool_decide as Hs.
    + eexists; split; [reflexivity|]. split; [reflexivity|]. intro Hne; contradiction.
    + eexists; split; [reflexivity|]. split; [reflexivity|]. intros _. reflexivity.
Qed.

Lemma validation_is_first_gate_witness :
  @generate_qr_code ascii_only all_succeed (lit "qr_codes") blank_request empty_world
  = (Raise (Exn InputValidationError (lit "Input data cannot be empty") None), empty_world)
  /\ exists e,
       @generate_qr_code ascii_only all_succeed (lit "qr_codes")
         (with_error_correction (lit "Z") (default_request (PyStr (lit "hello")))) empty_world
       = (Raise e, empty_world)
       /\ e = Exn InputValidationError
                (lit "Invalid error correction level: Z. Must be one of: ['L', 'M', 'Q', 'H']")
                None.
Proof.
  split.
  - apply (@validation_is_first_gate ascii_only all_succeed (lit "qr_codes")
             blank_request empty_world (lit "   ") eq_refl).
    reflexivity.
  - destruct (@validation_is_first_gate ascii_only all_succeed (lit "qr_codes")
                (with_error_correction (lit "Z") (default_request (PyStr (lit "hello"))))
                empty_world (lit "hello") eq_refl) as [_ Hlevel].
    destruct (Hlevel eq_refl) as (e & Hrun & _ & Hmsg).
    exists e. split; [exact Hrun|].
    apply Hmsg. discriminate.
Defined.

(** ** Encoder overflow *)

(** C8. When the encoder, called for a request that passed validation,
    raises [DataOverflowError], [generate_qr_code] raises
    [InputValidationError] with the message "Data too large for QR code"
    and the encoder's exception as its cause. *)
Theorem overflow_is_input_validation_error `{Unicode} (E : Env) (output_dir : pystr)
    (r : request) (w : world) (d : pystr) (level : ec_level) (e : exn) :
  data r = PyStr d ->
  strip d <> [] ->
  dict_get ERROR_CORRECTION_MAP (upper (error_correction r)) = Some level ->
  qr_make E d (version r) level (box_size r) (border r) = Raise e ->
  exn_class e = DataOverflowError ->
  generate_qr_code E output_dir r w
  = (Raise (Exn InputValidationError (lit "Data too large for QR code") (Some e)),
     with_call (CallEncode d (version r) level (box_size r) (border r)) w).
Proof.
  intros Hdata Hs Hec Hmake Hcls.
  unfold generate_qr_code, bind, try_except, lift. rewrite Hdata. simpl.
  unfold _validate_input_data, getitem. rewrite Hec.
  rewrite bool_decide_eq_false_2 by exact Hs. simpl.
  unfold make. rewrite Hmake.
  destruct e as [c m cause]. simpl in Hcls. subst c. reflexivity.
Qed.

Lemma overflow_is_input_validation_error_witness :
  fst (@generate_qr_code ascii_only overflowing (lit "qr_codes") oversized_request empty_world)
  = Raise (Exn InputValidationError (lit "Data too large for QR code")
               (Some (Exn DataOverflowError [] None))).
Proof.
  rewrite (@overflow_is_input_validation_error ascii_only overflowing (lit "qr_codes")
             oversized_request empty_world (repeat (chr "a") 5000) ERROR_CORRECT_H
             (Exn DataOverflowError [] None));
    [reflexivity | reflexivity | vm_compute; discriminate | reflexivity | reflexivity
    | reflexivity].
Defined.

(** ** Style names that are not in the tables *)

(** C1 (as the code behaves). For a styled request that passed
    validation and was encoded, a drawer style or colour mask whose
    lower-cased name is not in its table makes [_create_qr_image] raise
    [InputValidationError] with the valid names, but inside the [try]
    block whose [except Exception] clause turns it into
    [QRGenerationError]; [generate_qr_code] wraps that once more.  The
    caller receives a [QRGenerationError] that is not an
    [InputValidationError]. *)
Theorem invalid_style_is_wrapped `{Unicode} (E : Env) (output_dir : pystr)
    (r : request) (w : world) (d : pystr) (level : ec_level) (m : list (list bool)) :
  data r = PyStr d ->
  strip d <> [] ->
  dict_get ERROR_CORRECTION_MAP (upper (error_correction r)) = Some level ->
  qr_make E d (version r) level (box_size r) (border r) = Ok m ->
  styled r = true ->
  dict_get MODULE_DRAWERS (lower (drawer_style r)) = None
  \/ dict_get COLOR_MASKS (lower (color_mask r)) = None ->
  exists e0,
    (e0 = invalid_drawer_style (drawer_style r) \/ e0 = invalid_color_mask (color_mask r))
    /\ fst (generate_qr_code E output_dir r w) = Raise (wrapped_twice e0)
    /\ exn_class (wrapped_twice e0) = QRGenerationError
    /\ isinstance (wrapped_twice e0) InputValidationError = false.
Proof.
  intros Hdata Hs Hec Hmake Hstyled Hbad.
  assert (Hrun : forall e0,
             fst (_create_qr_image E
                    {| qr_modules := m; qr_box_size := box_size r; qr_border := border r |}
                    true (drawer_style r) (color_mask r)
                    (foreground_color r) (background_color r)
                    (with_call (CallEncode d (version r) level (box_size r) (border r)) w))
             = Raise (Exn QRGenerationError (lit "Image creation failed: " ++ str_exn e0)
                          (Some e0)) ->
             fst (generate_qr_code E output_dir r w) = Raise (wrapped_twice e0)).
  { intros e0 Himg.
    unfold generate_qr_code, bind, try_except, lift. rewrite Hdata. simpl.
    unfold _validate_input_data, getitem. rewrite Hec.
    rewrite bool_decide_eq_false_2 by exact Hs. simpl.
    unfold make. rewrite Hmake, Hstyled.
    destruct (_create_qr_image _ _ _ _ _ _ _ _) as [res w']. simpl in Himg.
    subst res. reflexivity. }
  destruct (dict_get MODULE_DRAWERS (lower (drawer_style r))) as [drawer|] eqn:Hdrawer.
  - destruct Hbad as [Hbad|Hmask]; [discriminate|].
    exists (invalid_color_mask (color_mask r)).
    split; [right; reflexivity|]. split; [|split; reflexivity].
    apply Hrun.
    unfold _create_qr_image, bind, try_except, getitem. rewrite Hdrawer.
    cbn -[dict_get lower lit].
    rewrite bool_decide_eq_false_2.
    2:{ intro Hsolid. rewrite Hsolid in Hmask. discriminate. }
    rewrite Hmask. reflexivity.
  - exists (invalid_drawer_style (drawer_style r)).
    split; [left; reflexivity|]. split; [|split; reflexivity].
    apply Hrun.
    unfold _create_qr_image, bind, try_except, getitem. rewrite Hdrawer. reflexivity.
Qed.

Lemma invalid_style_is_wrapped_witness :
  fst (@generate_qr_code ascii_only all_succeed (lit "qr_codes") triangle_request empty_world)
  = Raise (@wrapped_twice ascii_only (invalid_drawer_style (lit "triangle"))).
Proof.
  destruct (@invalid_style_is_wrapped ascii_only all_succeed (lit "qr_codes")
              triangle_request empty_world (lit "test") ERROR_CORRECT_L [[true]])
    as (e0 & He0 & Hrun & _);
    [reflexivity | vm_compute; discriminate | reflexivity | reflexivity | reflexivity
    | left; reflexivity | ].
  rewrite Hrun. destruct He0 as [-> | ->]; [reflexivity|].
  vm_compute in Hrun. discriminate Hrun.
Defined.

(** ** Data that is not a string *)

(** C9 (as the code behaves). [_validate_input_data] raises
    [InputValidationError] "Input data must be a string" for every value
    that is not a string, and [generate_qr_code] passes that on for the
    values that can be sliced (bytes, lists).  For the others (an int,
    [None], a bool) the first statement of [generate_qr_code], which
    formats [data[:50]] for the log before the [try] block, raises
    [TypeError], and the validation is never reached.  In every case the
    world is left as it was. *)
Theorem non_string_data `{Unicode} (E : Env) (output_dir : pystr) (r : request) (w : world) :
  is_str (data r) = false ->
  _validate_input_data (data r) w
  = (Raise (Exn InputValidationError (lit "Input data must be a string") None), w)
  /\ (subscriptable (data r) = true ->
      generate_qr_code E output_dir r w
      = (Raise (Exn InputValidationError (lit "Input data must be a string") None), w))
  /\ (subscriptable (data r) = false ->
      exists e, generate_qr_code E output_dir r w = (Raise e, w)
                /\ exn_class e = TypeError
                /\ isinstance e InputValidationError = false)
  /\ (forall z, data r = PyInt z ->
      generate_qr_code E output_dir r w = (Raise (not_subscriptable "int"), w)).
Proof.
  intro Hstr. unfold generate_qr_code, bind, try_except, lift.
  destruct (data r) as [|b|z|s|b|l]; try discriminate Hstr;
    (split; [reflexivity|]); (split; [|split]);
    try (intro Hsub; discriminate Hsub);
    try (intros _; reflexivity);
    try (intros _; eexists; split; [reflexivity|]; split; reflexivity);
    try (intros z' Hz; discriminate Hz).
  intros z' Hz. reflexivity.
Qed.

Lemma non_string_data_witness :
  @generate_qr_code ascii_only all_succeed (lit "qr_codes") (default_request (PyInt 42))
    empty_world
  = (Raise (Exn TypeError (lit "'int' object is not subscriptable") None), empty_world).
Proof.
  destruct (@non_string_data ascii_only all_succeed (lit "qr_codes")
              (default_request (PyInt 42)) empty_world eq_refl)
    as (_ & _ & _ & Hint).
  exact (Hint 42%Z eq_refl).
Defined.

(** ** Permission errors of the operating system *)

Section Permissions.
Context {U : Unicode} (E : Env).

(** An instance of the built-in [PermissionError] is not an instance
    of the module's [PermissionError]; it is an [OSError]. *)
Lemma builtin_permission_error_handlers (e : exn) :
  exn_class e = builtins_PermissionError ->
  isinstance e PermissionError = false /\ isinstance e OSError = true.
Proof. destruct e as [c m cause]; simpl; intros ->; split; reflexivity. Qed.

(** C2 (as the code behaves). When the operating system rejects a write
    with its [PermissionError], the [except PermissionError] clauses of
    the module, which name the module's own class, do not apply, and
    the [except OSError] clauses do: both the directory validation and
    [_save_image] raise plain [FileSystemError].  [generate_qr_code]
    then wraps the [FileSystemError] of [_save_image] in
    [QRGenerationError]. *)
Theorem os_permission_error_is_FileSystemError (e : exn) :
  exn_class e = builtins_PermissionError ->
  (forall output_dir w w',
      create_and_probe E output_dir w = (Raise e, w') ->
      _validate_and_create_output_dir E output_dir w
      = (Raise (Exn FileSystemError (lit "Filesystem error: " ++ str_exn e) (Some e)), w'))
  /\ (forall img path w,
      img_save E img path = Raise e ->
      _save_image E img path w
      = (Raise (Exn FileSystemError (lit "Filesystem error saving image: " ++ str_exn e)
                    (Some e)),
         with_call (CallSave img path) w))
  /\ (forall output_dir r w d level m,
      data r = PyStr d ->
      strip d <> [] ->
      dict_get ERROR_CORRECTION_MAP (upper (error_correction r)) = Some level ->
      qr_make E d (version r) level (box_size r) (border r) = Ok m ->
      styled r = false ->
      qr_make_image E (plain_image r m) = None ->
      img_save E (plain_image r m) (output_path output_dir r d) = Raise e ->
      let fe := Exn FileSystemError (lit "Filesystem error saving image: " ++ str_exn e)
                    (Some e) in
      fst (generate_qr_code E output_dir r w)
      = Raise (Exn QRGenerationError (lit "QR generation failed: " ++ str_exn fe) (Some fe))).
Proof.
  intro Hcls. destruct (builtin_permission_error_handlers e Hcls) as [Hown Hos].
  assert (Hsave : forall img path w,
             img_save E img path = Raise e ->
             _save_image E img path w
             = (Raise (Exn FileSystemError
                           (lit "Filesystem error saving image: " ++ str_exn e) (Some e)),
                with_call (CallSave img path) w)).
  { intros img path w Himg.
    unfold _save_image, try_except, save. rewrite Himg. simpl.
    rewrite Hown, Hos. reflexivity. }
  split; [|split].
  - intros output_dir w w' Hbody.
    unfold _validate_and_create_output_dir, try_except. rewrite Hbody. simpl.
    rewrite Hown, Hos. reflexivity.
  - exact Hsave.
  - intros output_dir r w d level m Hdata Hs Hec Hmake Hstyled Himage Himg fe.
    unfold generate_qr_code, bind, try_except, lift. rewrite Hdata. simpl.
    unfold _validate_input_data, getitem. rewrite Hec.
    rewrite bool_decide_eq_false_2 by exact Hs. simpl.
    unfold make. rewrite Hmake, Hstyled.
    unfold _create_qr_image, try_except, make_image.
    fold (plain_image r m). rewrite Himage.
    fold (output_path output_dir r d).
    rewrite (Hsave _ _ _ Himg). reflexivity.
Qed.

End Permissions.

Lemma os_permission_error_is_FileSystemError_witness :
  fst (@QRCodeGenerator_init ascii_only read_only_directory (lit "qr_codes") qr_codes_exists)
  = Raise (Exn FileSystemError (lit "Filesystem error: [Errno 13] Permission denied")
               (Some EACCES))
  /\ fst (@_save_image ascii_only read_only_directory
            (@plain_image ascii_only (default_request (PyStr (lit "test"))) [[true]])
            (lit "qr_codes/out.png") qr_codes_exists)
     = Raise (Exn FileSystemError
                  (lit "Filesystem error saving image: [Errno 13] Permission denied")
                  (Some EACCES))
  /\ exists fe,
       exn_class fe = FileSystemError
       /\ fst (@generate_qr_code ascii_only read_only_directory (lit "qr_codes")
                 (default_request (PyStr (lit "test"))) qr_codes_exists)
          = Raise (Exn QRGenerationError
                       (lit "QR generation failed: " ++ @str_exn ascii_only fe) (Some fe)).
Proof.
  destruct (@os_permission_error_is_FileSystemError ascii_only read_only_directory
              EACCES eq_refl) as (Hprobe & Hsave & Hgen).
  split; [|split].
  - unfold QRCodeGenerator_init.
    rewrite (Hprobe (lit "qr_codes") qr_codes_exists qr_codes_exists); reflexivity.
  - rewrite Hsave; reflexivity.
  - eexists. split; [|apply (Hgen (lit "qr_codes") (default_request (PyStr (lit "test")))
                              qr_codes_exists (lit "test") ERROR_CORRECT_L [[true]])];
      first [reflexivity | vm_compute; discriminate].
Defined.

(** ** The probe file *)

Section Probe.
Context {U : Unicode} (E : Env).

(** The three [except] clauses of [_validate_and_create_output_dir]
    raise, and leave the world alone. *)
Lemma validate_handlers_keep_world (output_dir : pystr) (body : M unit) (w w' : world)
    (e : exn) :
  body w = (Raise e, w') ->
  exists e',
    try_except body
      [ (PermissionError, fun e =>
           raise (Exn PermissionError
                      (lit "Insufficient permissions for directory " ++ output_dir) (Some e)));
        (OSError, fun e =>
           raise (Exn FileSystemError (lit "Filesystem error: " ++ str_exn e) (Some e)));
        (Exception, fun e =>
           raise (Exn QRGenerationError (lit "Unexpected error: " ++ str_exn e) (Some e))) ]
      w = (Raise e', w').
Proof.
  intro Hbody. unfold try_except. rewrite Hbody. simpl.
  destruct (isinstance e PermissionError); [eexists; reflexivity|].
  destruct (isinstance e OSError); [eexists; reflexivity|].
  destruct (isinstance e Exception); eexists; reflexivity.
Qed.

(** What the [try] block does to the files. *)
Lemma create_and_probe_files (output_dir : pystr) (w : world) :
  let '(res, w') := create_and_probe E output_dir w in
  match res with
  | Ok _ => files w' = delete (test_file output_dir) (<[ test_file output_dir := lit "test" ]> (files w))
  | Raise _ =>
      if probe_created E output_dir w
      then is_Some (files w' !! test_file output_dir)
      else files w' = files w
  end.
Proof.
  unfold create_and_probe, probe_created, bind, path_exists, makedirs, open_and_write,
    remove, ret.
  destruct (bool_decide (output_dir ∈ dirs w) || bool_decide (is_Some (files w !! output_dir)));
    simpl;
    [|destruct (os_makedirs E output_dir); simpl; [reflexivity|]];
    (destruct (open_w E (test_file output_dir)); simpl; [reflexivity|]);
    (destruct (file_write E (test_file output_dir) (lit "test")); simpl;
     [rewrite lookup_insert_eq; eexists; reflexivity|]);
    (destruct (os_remove E (test_file output_dir)); simpl;
     [rewrite lookup_insert_eq; eexists; reflexivity|reflexivity]).
Qed.

(** C3 (as the code behaves). When the directory validation returns,
    the probe file does not exist.  [os.remove] is the last statement
    of the [try] block and there is no [finally]: when the validation
    fails before the probe file is created the files are left as they
    were, and when it fails after that (the write or the removal
    raises) the probe file is still there. *)
Theorem probe_file_after_validation (output_dir : pystr) (w w' : world) (res : result unit) :
  _validate_and_create_output_dir E output_dir w = (res, w') ->
  (res = Ok tt -> files w' !! test_file output_dir = None)
  /\ (res <> Ok tt -> probe_created E output_dir w = false -> files w' = files w)
  /\ (res <> Ok tt -> probe_created E output_dir w = true ->
      is_Some (files w' !! test_file output_dir)).
Proof.
  intro Hrun.
  pose proof (create_and_probe_files output_dir w) as Hbody.
  destruct (create_and_probe E output_dir w) as [[[]|e] w1] eqn:Hcp.
  - unfold _validate_and_create_output_dir, try_except in Hrun.
    rewrite Hcp in Hrun. injection Hrun as <- <-.
    split; [|split]; [|intro Hne; contradiction..].
    intros _. rewrite Hbody. apply lookup_delete_eq.
  - destruct (validate_handlers_keep_world output_dir _ _ _ _ Hcp) as [e' He'].
    unfold _validate_and_create_output_dir in Hrun.
    rewrite He' in Hrun. injection Hrun as <- <-.
    split; [discriminate|].
    split; intros _ Hcreated; rewrite Hcreated in Hbody; exact Hbody.
Qed.

End Probe.

(** On a full disk the validation fails and the probe file, created
    empty, is left in the output directory. *)
Lemma probe_file_left_behind :
  let '(res, w') :=
    @_validate_and_create_output_dir ascii_only disk_full (lit "qr_codes") qr_codes_exists in
  res = Raise (Exn FileSystemError
                   (lit "Filesystem error: [Errno 28] No space left on device") (Some ENOSPC))
  /\ files qr_codes_exists !! lit "qr_codes/.permission_test" = None
  /\ files w' !! lit "qr_codes/.permission_test" = Some [].
Proof. vm_compute. repeat split; reflexivity. Qed.

Lemma probe_file_after_validation_witness :
  files (snd (@_validate_and_create_output_dir ascii_only all_succeed (lit "qr_codes")
                empty_world))
    !! lit "qr_codes/.permission_test" = None
  /\ files (snd (@_validate_and_create_output_dir ascii_only read_only_directory
                   (lit "qr_codes") qr_codes_exists))
     = files qr_codes_exists
  /\ is_Some (files (snd (@_validate_and_create_output_dir ascii_only disk_full
                            (lit "qr_codes") qr_codes_exists))
              !! lit "qr_codes/.permission_test").
Proof.
  split; [|split].
  - refine (proj1 (@probe_file_after_validation ascii_only all_succeed (lit "qr_codes")
                     empty_world _ (Ok tt) _) eq_refl).
    vm_compute. reflexivity.
  - refine (proj1 (proj2 (@probe_file_after_validation ascii_only read_only_directory
                            (lit "qr_codes") qr_codes_exists _ _ _)) _ _).
    + apply surjective_pairing.
    + vm_compute. discriminate.
    + vm_compute. reflexivity.
  - refine (proj2 (proj2 (@probe_file_after_validation ascii_only disk_full
                            (lit "qr_codes") qr_codes_exists _ _ _)) _ _).
    + apply surjective_pairing.
    + vm_compute. discriminate.
    + vm_compute. reflexivity.
Defined.

(** ** The default request for https://example.com *)

(** C5 (as the code behaves). For [data = "https://example.com"] and
    every other parameter at its default, whenever the encoder, the
    renderer and the save return, [generate_qr_code] returns the output
    directory joined with [qr_https___example_com.png] (the colon, the
    slashes and the dot of the URL each become [_]; the 19 sanitized
    characters are below the cut at 50), and the file at that path holds
    the bytes the save wrote, so it is not empty when they are not. *)
Theorem example_com_default_request `{Unicode} (E : Env) (output_dir : pystr) (w : world)
    (m : list (list bool)) (bytes : list N) :
  let r := default_request (PyStr (lit "https://example.com")) in
  let path := os_path_join output_dir (lit "qr_https___example_com.png") in
  let img := PilImage {| qr_modules := m; qr_box_size := 10; qr_border := 4 |}
                      (0, 0, 0)%Z (255, 255, 255)%Z in
  qr_make E (lit "https://example.com") None ERROR_CORRECT_L 10 4 = Ok m ->
  qr_make_image E img = None ->
  img_save E img path = Ok bytes ->
  bytes <> [] ->
  exists w',
    generate_qr_code E output_dir r w = (Ok path, w')
    /\ files w' !! path = Some bytes
    /\ (0 < length bytes)%nat.
Proof.
  intros r path img Hmake Himage Hsave Hbytes.
  eexists. split; [|split].
  - unfold generate_qr_code, bind, try_except, lift, r. simpl.
    unfold make. rewrite Hmake.
    unfold _create_qr_image, try_except, make_image.
    change (PilImage _ _ _) with img. rewrite Himage.
    unfold _save_image, try_except, save.
    change (os_path_join output_dir _) with path. rewrite Hsave.
    reflexivity.
  - simpl. apply lookup_insert_eq.
  - destruct bytes; [contradiction|simpl; lia].
Qed.

Lemma example_com_default_request_witness :
  exists w',
    @generate_qr_code ascii_only all_succeed (lit "qr_codes")
      (default_request (PyStr (lit "https://example.com"))) empty_world
    = (Ok (lit "qr_codes/qr_https___example_com.png"), w')
    /\ files w' !! lit "qr_codes/qr_https___example_com.png" = Some png_signature
    /\ (0 < length png_signature)%nat.
Proof.
  apply (@example_com_default_request ascii_only all_succeed (lit "qr_codes") empty_world
           [[true]] png_signature); first [reflexivity | discriminate].
Defined.

(** The path returned for https://example.com is not the one with the
    name [qr_https_ _example.com.png]. *)
Lemma example_com_filename_differs :
  fst (@generate_qr_code ascii_only all_succeed (lit "qr_codes")
         (default_request (PyStr (lit "https://example.com"))) empty_world)
  <> Ok (os_path_join (lit "qr_codes") (lit "qr_https_ _example.com.png")).
Proof. vm_compute. discriminate. Qed.

(** ** Letter case of the enumerated names *)

Section Case.
Context {U : Unicode} (E : Env).



End Case.


(** ** More on the Filename Synthesizer *)

Section FilenameMore.
Context {U : Unicode}.

Lemma sanitized_take (d : pystr) :
  take 50 (map (fun c => if allowed_in_filename c then c else chr "_") d)
  = map sanitize_char (take 50 d).
Proof. unfold sanitize_char. apply firstn_map. Qed.

Lemma generate_filename_sanitized (d ext : pystr) :
  _generate_filename d ext
  = lit "qr_" ++ map sanitize_char (take 50 d) ++ lit "." ++ ext.
Proof.
  rewrite generate_filename_unfold. unfold synthesize_spec.
  rewrite sanitized_take. reflexivity.
Qed.

(** X1. The length of a synthesized name is 3 for [qr_], the length of
    the data up to 50, 1 for the dot, and the length of the extension. *)
Theorem generate_filename_length (d ext : pystr) :
  length (_generate_filename d ext)
  = (3 + Nat.min 50 (length d) + 1 + length ext)%nat.
Proof.
  rewrite generate_filename_sanitized.
  rewrite !length_app, length_map, length_take.
  change (length (lit "qr_")) with 3%nat.
  change (length (lit ".")) with 1%nat. lia.
Qed.

(** X2. Two data strings get the same synthesized name exactly when
    their first 50 characters agree after sanitizing; so data that share
    their first 50 characters share the name, whatever follows. *)
Theorem generate_filename_collisions (d1 d2 ext : pystr) :
  (_generate_filename d1 ext = _generate_filename d2 ext
   <-> map sanitize_char (take 50 d1) = map sanitize_char (take 50 d2))
  /\ (take 50 d1 = take 50 d2 ->
      _generate_filename d1 ext = _generate_filename d2 ext).
Proof.
  assert (Hiff : _generate_filename d1 ext = _generate_filename d2 ext
                 <-> map sanitize_char (take 50 d1) = map sanitize_char (take 50 d2)).
  { rewrite !generate_filename_sanitized. split.
    - intro Heq. apply app_inv_head in Heq. apply app_inv_tail in Heq. exact Heq.
    - intros ->. reflexivity. }
  split; [exact Hiff|].
  intro Heq. apply Hiff. rewrite Heq. reflexivity.
Qed.

Lemma sanitize_char_allowed (d : pystr) :
  Forall filename_char d -> map sanitize_char d = d.
Proof.
  induction 1 as [|c d Hc _ IH]; simpl; [reflexivity|].
  rewrite IH. f_equal. unfold sanitize_char, allowed_in_filename.
  destruct Hc as [Hc|[->| ->]].
  - rewrite Hc. reflexivity.
  - rewrite bool_decide_eq_true_2 by reflexivity.
    destruct (isalnum (chr "-")); reflexivity.
  - rewrite (bool_decide_eq_true_2 (chr "_" = chr "_")) by reflexivity.
    rewrite orb_true_r. reflexivity.
Qed.

(** X3. Data made of alphanumerics, [-] and [_] only, and at most 50
    characters long, is kept as it is between [qr_] and the extension. *)
Theorem generate_filename_safe_data (d ext : pystr) :
  Forall filename_char d ->
  (length d <= 50)%nat ->
  _generate_filename d ext = lit "qr_" ++ d ++ lit "." ++ ext.
Proof.
  intros Hd Hlen. rewrite generate_filename_sanitized.
  rewrite take_ge by exact Hlen.
  rewrite sanitize_char_allowed by exact Hd. reflexivity.
Qed.

Lemma filename_char_not_slash c : filename_char c -> c <> chr "/".
Proof.
  intros [H|[->| ->]]; [|discriminate|discriminate].
  intros ->. vm_compute in H. discriminate.
Qed.

Lemma sanitize_char_filename_char (d : pystr) :
  Forall filename_char (map sanitize_char d).
Proof. apply replaced_chars. Qed.

(** X4. A synthesized [.png] name holds no [/], so joining it to the
    output directory only appends it: the file is saved directly in the
    output directory. *)
Theorem synthesized_path_in_output_dir (output_dir d : pystr) :
  (chr "/" ∉ _generate_filename d (lit "png"))
  /\ os_path_join output_dir (_generate_filename d (lit "png"))
     = if bool_decide (output_dir = []) || endswith_sep output_dir
       then output_dir ++ _generate_filename d (lit "png")
       else output_dir ++ lit "/" ++ _generate_filename d (lit "png").
Proof.
  split.
  - rewrite generate_filename_sanitized. intro Hin.
    apply elem_of_app in Hin as [Hin|Hin].
    { vm_compute in Hin.
      repeat (apply elem_of_cons in Hin as [Hin|Hin]; [discriminate Hin|]).
      apply elem_of_nil in Hin. exact Hin. }
    apply elem_of_app in Hin as [Hin|Hin].
    { pose proof (sanitize_char_filename_char (take 50 d)) as Hall.
      rewrite Forall_forall in Hall.
      exact (filename_char_not_slash _ (Hall _ Hin) eq_refl). }
    vm_compute in Hin.
    repeat (apply elem_of_cons in Hin as [Hin|Hin]; [discriminate Hin|]).
    apply elem_of_nil in Hin. exact Hin.
  - rewrite generate_filename_sanitized. reflexivity.
Qed.

End FilenameMore.

Lemma generate_filename_collisions_witness :
  @_generate_filename ascii_only
    (lit "https://example.com/a/very/long/path/that/goes/on/and/on/first") (lit "png")
  = @_generate_filename ascii_only
      (lit "https://example.com/a/very/long/path/that/goes/on/and/on/second") (lit "png").
Proof.
  apply (@generate_filename_collisions ascii_only). reflexivity.
Defined.

Lemma generate_filename_safe_data_witness :
  @_generate_filename ascii_only (lit "order-42_a") (lit "png") = lit "qr_order-42_a.png".
Proof.
  apply (@generate_filename_safe_data ascii_only (lit "order-42_a") (lit "png")).
  - repeat constructor;
      first [ left; reflexivity | right; left; reflexivity | right; right; reflexivity ].
  - simpl. lia.
Defined.

(** ** More on the validation of the data *)

Lemma forallb_isspace_iff `{Unicode} (s : pystr) :
  forallb isspace s = true <-> forall c, c ∈ s -> isspace c = true.
Proof.
  rewrite forallb_forall. split; intros Hs c Hc; apply Hs.
  - apply list_elem_of_In. exact Hc.
  - apply list_elem_of_In. exact Hc.
Qed.

Lemma has_non_space `{Unicode} (s : pystr) :
  strip s <> [] <-> exists c, c ∈ s /\ isspace c = false.
Proof.
  rewrite strip_nil_iff. split.
  - intro Hs. induction s as [|c s IH]; [contradiction Hs; reflexivity|].
    simpl in Hs. destruct (isspace c) eqn:Hc.
    + destruct (IH Hs) as (c' & Hin & Hc'). exists c'. split; [|exact Hc'].
      apply list_elem_of_further. exact Hin.
    + exists c. split; [apply list_elem_of_here|exact Hc].
  - intros (c & Hin & Hc) Hall.
    rewrite forallb_isspace_iff in Hall. rewrite (Hall c Hin) in Hc. discriminate.
Qed.

(** X5. [_validate_input_data] returns exactly for a string with at
    least one character that is not white space; for every other value
    it raises.  It never changes the world. *)
Theorem validate_input_data_accepts `{Unicode} (d : pyval) (w : world) :
  snd (_validate_input_data d w) = w
  /\ (fst (_validate_input_data d w) = Ok tt
      <-> exists s, d = PyStr s /\ exists c, c ∈ s /\ isspace c = false).
Proof.
  destruct d as [|b|z|s|b|l]; simpl;
    try (split; [reflexivity|]; split; [discriminate|intros (s & Hs & _); discriminate]).
  case_bool_decide as Hs; simpl.
  - split; [reflexivity|]. split; [discriminate|].
    intros (s' & [= <-] & Hc). apply has_non_space in Hc. contradiction.
  - split; [reflexivity|]. split; [|reflexivity].
    intros _. exists s. split; [reflexivity|]. apply has_non_space. exact Hs.
Qed.

(** ** The stages of [generate_qr_code] *)

Section Stages.
Context {U : Unicode} (E : Env).

Lemma generate_handlers (e : exn) (w : world) :
  handle (A := pystr)
    [ (InputValidationError, fun e => raise e);
      (DataOverflowError, fun e =>
         raise (Exn InputValidationError (lit "Data too large for QR code") (Some e)));
      (KeyboardInterrupt, fun e => raise e);
      (Exception, fun e =>
         raise (Exn QRGenerationError (lit "QR generation failed: " ++ str_exn e) (Some e))) ]
    e w
  = (Raise (generate_outcome e), w).
Proof.
  unfold generate_outcome. simpl.
  destruct (isinstance e InputValidationError); [reflexivity|].
  destruct (isinstance e DataOverflowError); [reflexivity|].
  destruct (isinstance e KeyboardInterrupt); [reflexivity|].
  destruct (isinstance e Exception); reflexivity.
Qed.

(** [_create_qr_image]: the image is resolved, then the renderer is
    called once. *)
Lemma create_qr_image_stages (qr : QRCode) (st : bool) (ds cm fg bg : pystr) (w : world) :
  _create_qr_image E qr st ds cm fg bg w
  = match requested_image qr st ds cm fg bg with
    | Raise e => (Raise (image_outcome e), w)
    | Ok img =>
        match qr_make_image E img with
        | None => (Ok img, with_call (CallMakeImage img) w)
        | Some e => (Raise (image_outcome e), with_call (CallMakeImage img) w)
        end
    end.
Proof.
  unfold _create_qr_image, requested_image, image_outcome, try_except, bind, getitem,
    make_image.
  destruct st.
  - destruct (dict_get MODULE_DRAWERS (lower ds)) as [drawer|]; [|reflexivity].
    cbn -[dict_get lower lit _parse_color].
    destruct (bool_decide (lower cm = lit "solid")).
    + cbn -[dict_get lower lit _parse_color].
      destruct (qr_make_image E _) as [e|]; [|reflexivity].
      simpl. destruct (isinstance e Exception); reflexivity.
    + destruct (dict_get COLOR_MASKS (lower cm)) as [cls|]; [|reflexivity].
      cbn -[dict_get lower lit _parse_color].
      destruct (qr_make_image E _) as [e|]; [|reflexivity].
      simpl. destruct (isinstance e Exception); reflexivity.
  - destruct (qr_make_image E _) as [e|]; [|reflexivity].
    simpl. destruct (isinstance e Exception); reflexivity.
Qed.

(** [_save_image]: one call of [img.save]. *)
Lemma save_image_stages (img : image) (path : pystr) (w : world) :
  _save_image E img path w
  = match img_save E img path with
    | Ok bytes =>
        (Ok tt, with_files (<[ path := bytes ]> (files w)) (with_call (CallSave img path) w))
    | Raise e => (Raise (save_outcome path e), with_call (CallSave img path) w)
    end.
Proof.
  unfold _save_image, save_outcome, try_except, save.
  destruct (img_save E img path) as [bytes|e]; [reflexivity|].
  simpl.
  destruct (isinstance e PermissionError); [reflexivity|].
  destruct (isinstance e OSError); [reflexivity|].
  destruct (isinstance e Exception); reflexivity.
Qed.

(** [generate_qr_code] stage by stage. *)
Lemma generate_stages (output_dir : pystr) (r : request) (w : world) :
  generate_qr_code E output_dir r w
  = match getitem_slice50 (data r) with
    | Raise e => (Raise e, w)
    | Ok _ =>
        match data r with
        | PyStr d =>
            if bool_decide (strip d = []) then
              (Raise (Exn InputValidationError (lit "Input data cannot be empty") None), w)
            else
              match dict_get ERROR_CORRECTION_MAP (upper (error_correction r)) with
              | None =>
                  (Raise (Exn InputValidationError
                              (lit "Invalid error correction level: " ++ error_correction r
                               ++ lit ". Must be one of: ['L', 'M', 'Q', 'H']") None), w)
              | Some level =>
                  let w1 := with_call (encode_call r d level) w in
                  match qr_make E d (version r) level (box_size r) (border r) with
                  | Raise e => (Raise (generate_outcome e), w1)
                  | Ok m =>
                      match _create_qr_image E (qr_of r m) (styled r) (drawer_style r)
                              (color_mask r) (foreground_color r) (background_color r) w1 with
                      | (Raise e, w2) => (Raise (generate_outcome e), w2)
                      | (Ok img, w2) =>
                          match _save_image E img (output_path output_dir r d) w2 with
                          | (Raise e, w3) => (Raise (generate_outcome e), w3)
                          | (Ok _, w3) => (Ok (output_path output_dir r d), w3)
                          end
                      end
                  end
              end
        | _ => (Raise (Exn InputValidationError (lit "Input data must be a string") None), w)
        end
    end.
Proof.
  unfold generate_qr_code, bind at 1, lift.
  destruct (getitem_slice50 (data r)) as [v|e]; [|reflexivity].
  unfold try_except at 1.
  destruct (data r) as [|b|z|d|b|l] eqn:Hdata; try reflexivity.
  unfold bind at 1, _validate_input_data.
  case_bool_decide as Hs; [reflexivity|].
  unfold ret at 1, bind at 1, try_except at 1, getitem.
  destruct (dict_get ERROR_CORRECTION_MAP (upper (error_correction r))) as [level|];
    [|reflexivity].
  unfold ret at 1. cbv zeta.
  unfold bind at 1, make.
  destruct (qr_make E d (version r) level (box_size r) (border r)) as [m|e];
    [|apply generate_handlers].
  fold (qr_of r m). fold (encode_call r d level).
  unfold bind at 1.
  destruct (_create_qr_image E (qr_of r m) (styled r) (drawer_style r) (color_mask r)
              (foreground_color r) (background_color r)
              (with_call (encode_call r d level) w)) as [[img|e] w2];
    [|apply generate_handlers].
  fold (output_path output_dir r d).
  unfold bind at 1.
  destruct (_save_image E img (output_path output_dir r d) w2) as [[[]|e] w3];
    [reflexivity|apply generate_handlers].
Qed.

End Stages.

(** ** What [generate_qr_code] does and raises *)

Section Pipeline.
Context {U : Unicode} (E : Env).

(** X6. [generate_qr_code] returns a path exactly when the data is a
    string that is not blank, the level is one of the four, and the
    encoder, the renderer and [img.save] all return; it then has made
    these three calls, once each and in this order, has created no
    directory, and the one file it has written is the returned path, with
    the bytes of the save. *)
Theorem generate_returns (output_dir : pystr) (r : request) (w w' : world) (p : pystr) :
  generate_qr_code E output_dir r w = (Ok p, w')
  <-> exists d level m img bytes,
        data r = PyStr d
        /\ strip d <> []
        /\ dict_get ERROR_CORRECTION_MAP (upper (error_correction r)) = Some level
        /\ qr_make E d (version r) level (box_size r) (border r) = Ok m
        /\ image_of r m = Ok img
        /\ qr_make_image E img = None
        /\ img_save E img p = Ok bytes
        /\ p = output_path output_dir r d
        /\ w' = {| dirs := dirs w;
                   files := <[ p := bytes ]> (files w);
                   calls := CallSave img p :: CallMakeImage img
                            :: encode_call r d level :: calls w |}.
Proof.
  rewrite generate_stages. split.
  - intro Hrun.
    destruct (getitem_slice50 (data r)) as [v|e]; [|discriminate].
    destruct (data r) as [|b|z|d|b|l]; try discriminate.
    case_bool_decide as Hs; [discriminate|].
    destruct (dict_get ERROR_CORRECTION_MAP (upper (error_correction r))) as [level|];
      [|discriminate].
    cbv zeta in Hrun.
    destruct (qr_make E d (version r) level (box_size r) (border r)) as [m|e] eqn:Hmake;
      [|discriminate].
    rewrite create_qr_image_stages in Hrun. fold (image_of r m) in Hrun.
    destruct (image_of r m) as [img|e] eqn:Himg; [|discriminate].
    destruct (qr_make_image E img) as [e|] eqn:Hrender; [discriminate|].
    rewrite save_image_stages in Hrun.
    destruct (img_save E img (output_path output_dir r d)) as [bytes|e] eqn:Hsave;
      [|discriminate].
    injection Hrun as <- <-.
    exists d, level, m, img, bytes. repeat split; try assumption; reflexivity.
  - intros (d & level & m & img & bytes & Hdata & Hs & Hlevel & Hmake & Himg & Hrender
            & Hsave & -> & ->).
    rewrite Hdata. cbn [getitem_slice50].
    rewrite bool_decide_eq_false_2 by exact Hs. rewrite Hlevel.
    cbv zeta. rewrite Hmake, create_qr_image_stages. fold (image_of r m).
    rewrite Himg, Hrender, save_image_stages, Hsave. reflexivity.
Qed.


Lemma generate_returns_path (output_dir : pystr) (r : request) (w w' : world) (p : pystr) :
  generate_qr_code E output_dir r w = (Ok p, w') ->
  exists d, data r = PyStr d /\ p = output_path output_dir r d /\ is_Some (files w' !! p).
Proof.
  intro Hrun. apply generate_returns in Hrun
    as (d & level & m & img & bytes & Hdata & _ & _ & _ & _ & _ & _ & Hp & ->).
  exists d. split; [exact Hdata|]. split; [exact Hp|].
  simpl. rewrite lookup_insert_eq. eexists; reflexivity.
Qed.

(** X8. The path [generate_qr_code] returns and writes: an explicit
    file name that starts with [/] is the path itself, and the output
    directory plays no part; any other explicit file name is joined to
    the output directory; with no file name, or the empty string for
    one, the name is synthesized from the data. *)
Theorem generate_path_resolution (output_dir : pystr) (r : request) (w w' : world)
    (p : pystr) :
  generate_qr_code E output_dir r w = (Ok p, w') ->
  is_Some (files w' !! p)
  /\ (forall f, filename r = Some f -> startswith_sep f = true -> p = f)
  /\ (forall f, filename r = Some f -> f <> [] -> p = os_path_join output_dir f)
  /\ (filename r = None \/ filename r = Some [] ->
      exists d, data r = PyStr d
                /\ p = os_path_join output_dir (_generate_filename d (lit "png"))).
Proof.
  intro Hrun. destruct (generate_returns_path _ _ _ _ _ Hrun) as (d & Hdata & -> & Hfile).
  split; [exact Hfile|]. unfold output_path. split; [|split].
  - intros f -> Hsep. destruct f as [|c f]; [discriminate|].
    unfold os_path_join. rewrite Hsep. reflexivity.
  - intros f -> Hf. destruct f as [|c f]; [contradiction|reflexivity].
  - intros [-> | ->]; exists d; split; try exact Hdata; reflexivity.
Qed.

Lemma generate_outcome_class (e : exn) :
  isinstance (generate_outcome e) Exception = true ->
  exn_class (generate_outcome e) = InputValidationError
  \/ exn_class (generate_outcome e) = QRGenerationError.
Proof.
  destruct e as [c m cause]. unfold generate_outcome.
  destruct c; cbn; intro Hex; first [discriminate Hex | left; reflexivity | right; reflexivity].
Qed.

(** X9. For data that can be sliced (a string, bytes, a list), every
    [Exception] that [generate_qr_code] raises is of class
    [InputValidationError] or of class [QRGenerationError] itself: no
    [FileSystemError], no [PermissionError] and no built-in exception
    reaches the caller. *)
Theorem generate_raises_only (output_dir : pystr) (r : request) (w w' : world) (e : exn) :
  subscriptable (data r) = true ->
  generate_qr_code E output_dir r w = (Raise e, w') ->
  isinstance e Exception = true ->
  exn_class e = InputValidationError \/ exn_class e = QRGenerationError.
Proof.
  intros Hsub Hrun. rewrite generate_stages in Hrun.
  destruct (getitem_slice50 (data r)) as [v|e0] eqn:Hslice.
  2:{ destruct (data r); discriminate. }
  assert (Hout : forall e0 w0,
             (@Raise pystr (generate_outcome e0), w0) = (Raise e, w') ->
                 isinstance e Exception = true ->
                 exn_class e = InputValidationError \/ exn_class e = QRGenerationError).
  { intros e0 w0 [= <- _]. apply generate_outcome_class. }
  destruct (data r) as [|b|z|d|b|l]; try discriminate Hsub;
    try (injection Hrun as <- _; intros _; left; reflexivity).
  case_bool_decide as Hs; [injection Hrun as <- _; intros _; left; reflexivity|].
  destruct (dict_get ERROR_CORRECTION_MAP (upper (error_correction r))) as [level|];
    [|injection Hrun as <- _; intros _; left; reflexivity].
  cbv zeta in Hrun.
  destruct (qr_make E d (version r) level (box_size r) (border r)) as [m|e0];
    [|exact (Hout _ _ Hrun)].
  destruct (_create_qr_image _ _ _ _ _ _ _ _) as [[img|e0] w2]; [|exact (Hout _ _ Hrun)].
  destruct (_save_image _ _ _ _) as [[[]|e0] w3]; [discriminate|exact (Hout _ _ Hrun)].
Qed.

Lemma keyboard_interrupt_outcomes (e : exn) (path : pystr) :
  exn_class e = KeyboardInterrupt ->
  generate_outcome e = e /\ image_outcome e = e /\ save_outcome path e = e.
Proof.
  destruct e as [c m cause]. simpl. intros ->. repeat split.
Qed.

(** X10. A [KeyboardInterrupt] raised by the encoder, by the renderer or
    by [img.save] while a validated request is served leaves
    [generate_qr_code] as it is: the same exception object, not wrapped. *)
Theorem keyboard_interrupt_propagates (output_dir : pystr) (r : request) (w : world)
    (d : pystr) (level : ec_level) (e : exn) :
  data r = PyStr d ->
  strip d <> [] ->
  dict_get ERROR_CORRECTION_MAP (upper (error_correction r)) = Some level ->
  exn_class e = KeyboardInterrupt ->
  qr_make E d (version r) level (box_size r) (border r) = Raise e
  \/ (exists m img,
        qr_make E d (version r) level (box_size r) (border r) = Ok m
        /\ image_of r m = Ok img
        /\ (qr_make_image E img = Some e
            \/ (qr_make_image E img = None
                /\ img_save E img (output_path output_dir r d) = Raise e))) ->
  fst (generate_qr_code E output_dir r w) = Raise e.
Proof.
  intros Hdata Hs Hlevel Hcls Hstage.
  destruct (keyboard_interrupt_outcomes e (output_path output_dir r d) Hcls)
    as (Hgen & Himage & Hsave).
  rewrite generate_stages, Hdata. cbn [getitem_slice50].
  rewrite bool_decide_eq_false_2 by exact Hs. rewrite Hlevel. cbv zeta.
  destruct Hstage as [Hmake|(m & img & Hmake & Himg & Hlater)]; rewrite Hmake.
  - simpl. rewrite Hgen. reflexivity.
  - rewrite create_qr_image_stages. fold (image_of r m). rewrite Himg.
    destruct Hlater as [Hrender|[Hrender Hsaved]]; rewrite Hrender.
    + simpl. rewrite Himage, Hgen. reflexivity.
    + rewrite save_image_stages, Hsaved. simpl. rewrite Hsave, Hgen. reflexivity.
Qed.

(** X11. For a request that is not styled the drawer style and the
    colour mask are not looked at: any names, valid or not, give the same
    outcome. *)
Theorem unstyled_ignores_style_names (output_dir : pystr) (r : request) (w : world)
    (ds cm : pystr) :
  styled r = false ->
  generate_qr_code E output_dir (with_names (error_correction r) ds cm r) w
  = generate_qr_code E output_dir r w.
Proof.
  intro Hstyled. rewrite !generate_stages.
  cbn [with_names data filename version error_correction box_size border styled
         drawer_style color_mask foreground_color background_color].
  destruct (getitem_slice50 (data r)) as [v|e]; [|reflexivity].
  destruct (data r) as [|b|z|d|b|l]; try reflexivity.
  case_bool_decide as Hs; [reflexivity|].
  destruct (dict_get ERROR_CORRECTION_MAP (upper (error_correction r))) as [level|];
    [|reflexivity].
  cbv zeta. change (encode_call (with_names _ _ _ _) d level) with (encode_call r d level).
  destruct (qr_make E d (version r) level (box_size r) (border r)) as [m|e]; [|reflexivity].
  rewrite !create_qr_image_stages, Hstyled. reflexivity.
Qed.

(** X12. For a styled request with a valid drawer and the mask [solid]
    (in any letter case), the renderer is asked for a solid-fill mask
    whose back colour is the parsed background and whose front colour is
    the parsed foreground, and the image is returned when the renderer
    returns. *)
Theorem solid_mask_uses_colors (qr : QRCode) (ds cm fg bg : pystr) (drawer : module_drawer)
    (w : world) :
  dict_get MODULE_DRAWERS (lower ds) = Some drawer ->
  lower cm = lit "solid" ->
  qr_make_image E (StyledPilImage qr drawer (SolidFill (_parse_color bg) (_parse_color fg)))
  = None ->
  _create_qr_image E qr true ds cm fg bg w
  = (Ok (StyledPilImage qr drawer (SolidFill (_parse_color bg) (_parse_color fg))),
     with_call (CallMakeImage
                  (StyledPilImage qr drawer (SolidFill (_parse_color bg) (_parse_color fg))))
               w).
Proof.
  intros Hdrawer Hsolid Hrender.
  rewrite create_qr_image_stages. unfold requested_image.
  rewrite Hdrawer, bool_decide_eq_true_2 by exact Hsolid.
  rewrite Hrender. reflexivity.
Qed.

(** X13. For a styled request whose mask is not [solid], the foreground
    and background colours have no effect: any two colours give the same
    outcome. *)
Theorem gradient_mask_ignores_colors (output_dir : pystr) (r : request) (w : world)
    (fg bg : pystr) :
  styled r = true ->
  lower (color_mask r) <> lit "solid" ->
  generate_qr_code E output_dir (with_colors fg bg r) w = generate_qr_code E output_dir r w.
Proof.
  intros Hstyled Hmask. rewrite !generate_stages.
  cbn [with_colors data filename version error_correction box_size border styled
         drawer_style color_mask foreground_color background_color].
  destruct (getitem_slice50 (data r)) as [v|e]; [|reflexivity].
  destruct (data r) as [|b|z|d|b|l]; try reflexivity.
  case_bool_decide as Hs; [reflexivity|].
  destruct (dict_get ERROR_CORRECTION_MAP (upper (error_correction r))) as [level|];
    [|reflexivity].
  cbv zeta. change (encode_call (with_colors _ _ _) d level) with (encode_call r d level).
  destruct (qr_make E d (version r) level (box_size r) (border r)) as [m|e]; [|reflexivity].
  rewrite !create_qr_image_stages, Hstyled. unfold requested_image.
  rewrite (bool_decide_eq_false_2 _ Hmask). reflexivity.
Qed.

End Pipeline.

(** ** More on the output directory and on saving *)

Section Filesystem.
Context {U : Unicode} (E : Env).



Lemma validate_handlers (output_dir : pystr) (e : exn) (w : world) :
  handle (A := unit)
    [ (PermissionError, fun e =>
         raise (Exn PermissionError
                    (lit "Insufficient permissions for directory " ++ output_dir) (Some e)));
      (OSError, fun e =>
         raise (Exn FileSystemError (lit "Filesystem error: " ++ str_exn e) (Some e)));
      (Exception, fun e =>
         raise (Exn QRGenerationError (lit "Unexpected error: " ++ str_exn e) (Some e))) ]
    e w
  = (Raise (validate_outcome output_dir e), w).
Proof.
  unfold validate_outcome. simpl.
  destruct (isinstance e PermissionError); [reflexivity|].
  destruct (isinstance e OSError); [reflexivity|].
  destruct (isinstance e Exception); reflexivity.
Qed.

Lemma validate_stages (output_dir : pystr) (w : world) :
  _validate_and_create_output_dir E output_dir w
  = match create_and_probe E output_dir w with
    | (Ok a, w') => (Ok a, w')
    | (Raise e, w') => (Raise (validate_outcome output_dir e), w')
    end.
Proof.
  unfold _validate_and_create_output_dir, try_except.
  destruct (create_and_probe E output_dir w) as [[a|e] w']; [reflexivity|].
  apply validate_handlers.
Qed.

Lemma validation_returns_world (output_dir : pystr) (w w' : world) :
  _validate_and_create_output_dir E output_dir w = (Ok tt, w')
  <-> probe_created E output_dir w = true
      /\ file_write E (test_file output_dir) (lit "test") = None
      /\ os_remove E (test_file output_dir) = None
      /\ w' = {| dirs := if bool_decide (output_dir ∈ dirs w)
                            || bool_decide (is_Some (files w !! output_dir))
                         then dirs w else {[ output_dir ]} ∪ dirs w;
                 files := delete (test_file output_dir) (files w);
                 calls := calls w |}.
Proof.
  rewrite validate_stages.
  unfold create_and_probe, probe_created, bind, path_exists, makedirs, open_and_write,
    remove, ret, with_files, with_dirs.
  destruct (bool_decide (output_dir ∈ dirs w)
            || bool_decide (is_Some (files w !! output_dir))); simpl.
  - destruct (open_w E (test_file output_dir)); simpl;
      [split; [discriminate|intros [[=] _]]|].
    destruct (file_write E (test_file output_dir) (lit "test")); simpl;
      [split; [discriminate|intros (_ & [=] & _)]|].
    destruct (os_remove E (test_file output_dir)); simpl;
      [split; [discriminate|intros (_ & _ & [=] & _)]|].
    rewrite delete_insert_eq. split.
    + intros [= <-]. destruct w; repeat split.
    + intros (_ & _ & _ & ->). destruct w; reflexivity.
  - destruct (os_makedirs E output_dir); simpl;
      [split; [discriminate|intros [[=] _]]|].
    destruct (open_w E (test_file output_dir)); simpl;
      [split; [discriminate|intros [[=] _]]|].
    destruct (file_write E (test_file output_dir) (lit "test")); simpl;
      [split; [discriminate|intros (_ & [=] & _)]|].
    destruct (os_remove E (test_file output_dir)); simpl;
      [split; [discriminate|intros (_ & _ & [=] & _)]|].
    rewrite delete_insert_eq. split.
    + intros [= <-]. repeat split.
    + intros (_ & _ & _ & ->). reflexivity.
Qed.

(** X14. The validation of the output directory returns exactly when
    the directory is there or [os.makedirs] returns, and opening, writing
    and removing the probe file all return.  The files are then those
    from before, less [.permission_test]: a file of that name that was
    already in the directory is deleted. *)
Theorem validation_returns (output_dir : pystr) (w : world) :
  (fst (_validate_and_create_output_dir E output_dir w) = Ok tt
   <-> probe_created E output_dir w = true
       /\ file_write E (test_file output_dir) (lit "test") = None
       /\ os_remove E (test_file output_dir) = None)
  /\ (fst (_validate_and_create_output_dir E output_dir w) = Ok tt ->
      files (snd (_validate_and_create_output_dir E output_dir w))
      = delete (test_file output_dir) (files w)).
Proof.
  destruct (_validate_and_create_output_dir E output_dir w) as [[[]|e] w'] eqn:Hrun; simpl.
  - apply validation_returns_world in Hrun as (Hc & Hw & Hr & ->).
    split; [split; [intros _; repeat split; assumption|reflexivity]|].
    intros _. reflexivity.
  - split; [split; [discriminate|]|discriminate].
    intros (Hc & Hw & Hr).
    assert (Hok : _validate_and_create_output_dir E output_dir w
                  = (Ok tt, {| dirs := if bool_decide (output_dir ∈ dirs w)
                                          || bool_decide (is_Some (files w !! output_dir))
                                       then dirs w else {[ output_dir ]} ∪ dirs w;
                               files := delete (test_file output_dir) (files w);
                               calls := calls w |})).
    { apply validation_returns_world. repeat split; assumption. }
    rewrite Hok in Hrun. discriminate Hrun.
Qed.


Lemma filesystem_outcome_classes (e e' : exn) :
  (e' = (if isinstance e PermissionError then Exn PermissionError (exn_message e') (Some e)
         else if isinstance e OSError then Exn FileSystemError (exn_message e') (Some e)
         else if isinstance e Exception then Exn QRGenerationError (exn_message e') (Some e)
         else e)) ->
  (isinstance e Exception = false -> e' = e)
  /\ (isinstance e Exception = true ->
      isinstance e' QRGenerationError = true /\ exn_cause e' = Some e)
  /\ (isinstance e OSError = true -> exn_class e' = FileSystemError)
  /\ (exn_class e' = PermissionError -> exn_class e = PermissionError).
Proof.
  destruct e as [c m cause]. destruct c; cbn; intros ->; cbn;
    repeat split; intros; first [reflexivity | discriminate | assumption].
Qed.

(** X16. When the [try] block of the directory validation raises [e],
    the validation raises in its place: [e] itself when it is no
    [Exception] (a [KeyboardInterrupt]); otherwise an exception of the
    module's classes with [e] as its cause, a plain [FileSystemError]
    for every [OSError].  The module's [PermissionError] comes out only
    if the block itself raised the module's [PermissionError]. *)
Theorem validation_error_classes (output_dir : pystr) (w w' : world) (e : exn) :
  create_and_probe E output_dir w = (Raise e, w') ->
  exists e',
    _validate_and_create_output_dir E output_dir w = (Raise e', w')
    /\ (isinstance e Exception = false -> e' = e)
    /\ (isinstance e Exception = true ->
        isinstance e' QRGenerationError = true /\ exn_cause e' = Some e)
    /\ (isinstance e OSError = true -> exn_class e' = FileSystemError)
    /\ (exn_class e' = PermissionError -> exn_class e = PermissionError).
Proof.
  intro Hbody. exists (validate_outcome output_dir e).
  split; [rewrite validate_stages, Hbody; reflexivity|].
  apply filesystem_outcome_classes. unfold validate_outcome.
  destruct (isinstance e PermissionError); [reflexivity|].
  destruct (isinstance e OSError); [reflexivity|].
  destruct (isinstance e Exception); reflexivity.
Qed.

(** X17. [_save_image] calls [img.save] once.  When the save returns,
    the file at the path holds the bytes written; when it raises [e],
    [_save_image] raises [e] itself if it is no [Exception], and
    otherwise an exception of the module's classes with [e] as its
    cause, a plain [FileSystemError] for every [OSError]. *)
Theorem save_image_behaviour (img : image) (path : pystr) (w : world) :
  calls (snd (_save_image E img path w)) = CallSave img path :: calls w
  /\ (forall bytes,
        img_save E img path = Ok bytes ->
        fst (_save_image E img path w) = Ok tt
        /\ files (snd (_save_image E img path w)) !! path = Some bytes)
  /\ (forall e,
        img_save E img path = Raise e ->
        exists e',
          fst (_save_image E img path w) = Raise e'
          /\ (isinstance e Exception = false -> e' = e)
          /\ (isinstance e Exception = true ->
              isinstance e' QRGenerationError = true /\ exn_cause e' = Some e)
          /\ (isinstance e OSError = true -> exn_class e' = FileSystemError)
          /\ (exn_class e' = PermissionError -> exn_class e = PermissionError)).
Proof.
  rewrite save_image_stages. split; [|split].
  - destruct (img_save E img path); reflexivity.
  - intros bytes ->. split; [reflexivity|]. simpl. apply lookup_insert_eq.
  - intros e ->. exists (save_outcome path e). split; [reflexivity|].
    apply filesystem_outcome_classes. unfold save_outcome.
    destruct (isinstance e PermissionError); [reflexivity|].
    destruct (isinstance e OSError); [reflexivity|].
    destruct (isinstance e Exception); reflexivity.
Qed.

(** X18. When the output directory is missing and [os.makedirs] raises,
    nothing else is attempted: no probe file is opened and the world is
    as before.  When the directory is there, [os.makedirs] is not
    called: whether it would return or raise plays no part. *)
Theorem makedirs_only_when_missing (output_dir : pystr) (w : world) :
  (forall e,
     output_dir ∉ dirs w ->
     files w !! output_dir = None ->
     os_makedirs E output_dir = Some e ->
     exists e',
       _validate_and_create_output_dir E output_dir w = (Raise e', w)
       /\ (isinstance e OSError = true -> exn_class e' = FileSystemError))
  /\ (forall E' : Env,
        output_dir ∈ dirs w ->
        open_w E' = open_w E ->
        file_write E' = file_write E ->
        os_remove E' = os_remove E ->
        _validate_and_create_output_dir E' output_dir w
        = _validate_and_create_output_dir E output_dir w).
Proof.
  split.
  - intros e Hdir Hfile Hmk. exists (validate_outcome output_dir e). split.
    + rewrite validate_stages.
      unfold create_and_probe, bind, path_exists, makedirs.
      rewrite bool_decide_eq_false_2 by exact Hdir.
      rewrite bool_decide_eq_false_2 by (rewrite Hfile; intros [x Hx]; discriminate).
      simpl. rewrite Hmk. reflexivity.
    + intro Hos. unfold validate_outcome. destruct e as [c m cause].
      destruct c; try discriminate Hos; reflexivity.
  - intros E' Hdir Hopen Hwrite Hremove.
    unfold _validate_and_create_output_dir, try_except, create_and_probe, bind,
      path_exists, open_and_write, remove, ret.
    rewrite bool_decide_eq_true_2 by exact Hdir. simpl.
    rewrite Hopen, Hwrite, Hremove. reflexivity.
Qed.

End Filesystem.

(** ** Trimming *)

Section StripMore.
Context {U : Unicode}.

Lemma lstrip_fixed (s : pystr) :
  match s with [] => True | c :: _ => isspace c = false end -> lstrip s = s.
Proof. destruct s as [|c s]; simpl; [reflexivity|]. intros ->. reflexivity. Qed.

Lemma lstrip_lstrip (s : pystr) : lstrip (lstrip s) = lstrip s.
Proof. apply lstrip_fixed, lstrip_head. Qed.

Lemma lstrip_is_suffix (s : pystr) : exists p, s = p ++ lstrip s.
Proof.
  induction s as [|c s [p IH]]; [exists []; reflexivity|].
  simpl. destruct (isspace c).
  - exists (c :: p). simpl. f_equal. exact IH.
  - exists []. reflexivity.
Qed.

Lemma rstrip_is_prefix (s : pystr) : exists q, s = rstrip s ++ q.
Proof.
  unfold rstrip. destruct (lstrip_is_suffix (rev s)) as [p Hp].
  exists (rev p). rewrite <- rev_app_distr, <- Hp, rev_involutive. reflexivity.
Qed.

Lemma rstrip_rstrip (s : pystr) : rstrip (rstrip s) = rstrip s.
Proof. unfold rstrip. rewrite rev_involutive, lstrip_lstrip. reflexivity. Qed.

(** Trimming a trimmed string changes nothing. *)
Lemma strip_strip (s : pystr) : strip (strip s) = strip s.
Proof.
  unfold strip.
  assert (Hl : lstrip (rstrip (lstrip s)) = rstrip (lstrip s)).
  { apply lstrip_fixed.
    destruct (rstrip_is_prefix (lstrip s)) as [q Hq].
    pose proof (lstrip_head s) as Hh.
    destruct (rstrip (lstrip s)) as [|c t]; [exact I|].
    rewrite Hq in Hh. exact Hh. }
  rewrite Hl. apply rstrip_rstrip.
Qed.

End StripMore.

(** ** The interactive questions *)

Section Interactive.
Context {U : Unicode} (int_ : pystr -> result Z).

Lemma io_bind_returns {A B} (m : IO A) (k : A -> IO B) (s s' : list stdin_event) (b : B) :
  io_bind m k s = (Returns b, s') ->
  exists a s1, m s = (Returns a, s1) /\ k a s1 = (Returns b, s').
Proof.
  unfold io_bind. destruct (m s) as [[a|e] s1]; [|discriminate].
  intro Hk. exists a, s1. split; [reflexivity|exact Hk].
Qed.

Lemma input_returns (s s' : list stdin_event) (text : pystr) :
  input s = (Returns text, s') -> s = Line text :: s'.
Proof.
  destruct s as [|[t|] s0]; simpl; [discriminate| |discriminate].
  intros [= -> ->]. reflexivity.
Qed.

Lemma read_data_returns (s s' : list stdin_event) (d : pystr) :
  read_data s = (Returns d, s') -> strip d = d /\ d <> [].
Proof.
  induction s as [|[text|] s IH]; simpl; [discriminate| |discriminate].
  case_bool_decide as Hblank; [exact IH|].
  intros [= <- <-]. split; [apply strip_strip|exact Hblank].
Qed.

(** Unfolds one question of [get_interactive_input] in hypothesis [H]. *)
Ltac ask H :=
  let a := fresh "a" in
  let s1 := fresh "s" in
  let Hm := fresh "Hm" in
  cbv zeta in H; apply io_bind_returns in H as (a & s1 & Hm & H); cbv zeta in H.

Ltac asked H :=
  repeat
    match type of H with
    | io_bind _ _ _ = (Returns _, _) => ask H
    | (if ?c then _ else _) _ = (Returns _, _) => destruct c eqn:?
    | io_ret _ _ = (Returns _, _) => injection H as <- <-
    end.

Lemma interactive_data_trimmed (s s' : list stdin_event) (i : Inputs.t) :
  get_interactive_input int_ s = (Returns i, s') ->
  strip (Inputs.data i) = Inputs.data i /\ Inputs.data i <> [].
Proof.
  intro H. unfold get_interactive_input in H.
  ask H. apply read_data_returns in Hm as [Htrim Hne].
  assert (Hdata : Inputs.data i = a).
  { asked H; reflexivity. }
  rewrite Hdata. split; [exact Htrim|exact Hne].
Qed.

(** X19. The data [get_interactive_input] returns is never blank and is
    already trimmed, so [_validate_input_data] accepts it. *)
Theorem interactive_data_is_valid (s s' : list stdin_event) (i : Inputs.t) (w : world) :
  get_interactive_input int_ s = (Returns i, s') ->
  strip (Inputs.data i) = Inputs.data i
  /\ Inputs.data i <> []
  /\ _validate_input_data (PyStr (Inputs.data i)) w = (Ok tt, w).
Proof.
  intro H. destruct (interactive_data_trimmed _ _ _ H) as [Htrim Hne].
  split; [exact Htrim|]. split; [exact Hne|].
  simpl. rewrite Htrim. rewrite bool_decide_eq_false_2 by exact Hne. reflexivity.
Qed.

Lemma interactive_level_in_keys (s s' : list stdin_event) (i : Inputs.t) :
  get_interactive_input int_ s = (Returns i, s') ->
  Inputs.error_correction i ∈ keys ERROR_CORRECTION_MAP.
Proof.
  intro H. unfold get_interactive_input in H.
  do 6 ask H.
  match type of H with
  | context [bool_decide (?ec ∈ ?l)] =>
      assert (Hec : Inputs.error_correction i
                    = if bool_decide (ec ∈ l) then ec else lit "L")
  end.
  { asked H; reflexivity. }
  rewrite Hec. clear H Hec.
  match goal with
  | |- context [bool_decide (?x ∈ ?l)] =>
      destruct (bool_decide_reflect (x ∈ l)) as [Hin|Hin]
  end.
  - exact Hin.
  - apply list_elem_of_here.
Qed.

Lemma level_key_is_found (ec : pystr) :
  ec ∈ keys ERROR_CORRECTION_MAP ->
  is_Some (dict_get ERROR_CORRECTION_MAP (upper ec)).
Proof.
  intro Hin.
  repeat (apply elem_of_cons in Hin as [-> |Hin]; [eexists; reflexivity|]).
  apply elem_of_nil in Hin. contradiction.
Qed.

(** X20. The error-correction level [get_interactive_input] returns is
    one of [L], [M], [Q], [H]: any other answer becomes [L].  So the
    lookup in [generate_qr_code] finds it. *)
Theorem interactive_level_is_valid (s s' : list stdin_event) (i : Inputs.t) :
  get_interactive_input int_ s = (Returns i, s') ->
  Inputs.error_correction i ∈ keys ERROR_CORRECTION_MAP
  /\ is_Some (dict_get ERROR_CORRECTION_MAP (upper (Inputs.error_correction i))).
Proof.
  intro H. pose proof (interactive_level_in_keys _ _ _ H) as Hin.
  split; [exact Hin|apply level_key_is_found; exact Hin].
Qed.

Lemma has_key_default {V} (d : list (pystr * V)) (k fallback : pystr) :
  has_key d fallback = true ->
  has_key d (if has_key d k then k else fallback) = true.
Proof. intro Hf. destruct (has_key d k) eqn:Hk; [exact Hk|exact Hf]. Qed.

(** X21. When the user asks for a styled code, the drawer style and the
    colour mask [get_interactive_input] returns are keys of
    [MODULE_DRAWERS] and [COLOR_MASKS] (any other answer becomes
    [rounded], [radial]), and the two colours are asked for exactly when
    the mask is [solid]; otherwise none of the four keys is set. *)
Theorem interactive_style_is_valid (s s' : list stdin_event) (i : Inputs.t) :
  get_interactive_input int_ s = (Returns i, s') ->
  if Inputs.styled i then
    exists ds cm,
      Inputs.drawer_style i = Some ds /\ has_key MODULE_DRAWERS ds = true
      /\ Inputs.color_mask i = Some cm /\ has_key COLOR_MASKS cm = true
      /\ (is_Some (Inputs.foreground_color i) <-> cm = lit "solid")
      /\ (is_Some (Inputs.background_color i) <-> cm = lit "solid")
  else
    Inputs.drawer_style i = None /\ Inputs.color_mask i = None
    /\ Inputs.foreground_color i = None /\ Inputs.background_color i = None.
Proof.
  intro H. unfold get_interactive_input in H.
  do 11 ask H.
  match type of H with
  | (if ?c then _ else _) _ = _ => destruct c
  end.
  - do 2 ask H.
    match type of H with
    | (if bool_decide (?cm = _) then _ else _) _ = _ => destruct (bool_decide_reflect (cm = lit "solid")) as [Hsolid|Hsolid]
    end.
    + asked H. simpl. eexists _, _.
      split; [reflexivity|]. split; [apply has_key_default; reflexivity|].
      split; [reflexivity|]. split; [apply has_key_default; reflexivity|].
      split; (split; [intros _; exact Hsolid|intros _; eexists; reflexivity]).
    + asked H. simpl. eexists _, _.
      split; [reflexivity|]. split; [apply has_key_default; reflexivity|].
      split; [reflexivity|]. split; [apply has_key_default; reflexivity|].
      split; (split; [intros [x Hx]; discriminate Hx|intro Hc; contradiction]).
  - asked H. simpl. repeat split.
Qed.

Lemma read_data_skips (blanks : list pystr) (s : list stdin_event) :
  Forall (fun text => strip text = []) blanks ->
  read_data (map Line blanks ++ s) = read_data s.
Proof.
  induction 1 as [|text blanks Hblank _ IH]; simpl; [reflexivity|].
  rewrite bool_decide_eq_true_2 by exact Hblank. exact IH.
Qed.

(** X22. Blank lines given for the data are skipped, however many they
    are: the data is asked for again, and the run goes on as if they had
    not been typed. *)
Theorem blank_data_lines_are_skipped (blanks : list pystr) (s : list stdin_event) :
  Forall (fun text => strip text = []) blanks ->
  get_interactive_input int_ (map Line blanks ++ s) = get_interactive_input int_ s.
Proof.
  intro Hblanks. unfold get_interactive_input, io_bind at 1 3.
  rewrite read_data_skips by exact Hblanks. reflexivity.
Qed.

Lemma ask_line {A} (k : pystr -> IO A) (text : pystr) (s : list stdin_event) :
  io_bind input k (Line text :: s) = k text s.
Proof. reflexivity. Qed.

Lemma ret_bind {A B} (a : A) (k : A -> IO B) (s : list stdin_event) :
  io_bind (io_ret a) k s = k a s.
Proof. reflexivity. Qed.

Lemma ask_data {A} (k : pystr -> IO A) (text : pystr) (s : list stdin_event) :
  strip text <> [] ->
  io_bind read_data k (Line text :: s) = k (strip text) s.
Proof.
  intro Htext. unfold io_bind. simpl.
  rewrite (bool_decide_eq_false_2 _ Htext). reflexivity.
Qed.

Lemma blank_is_no_level :
  bool_decide (upper [] ∈ [lit "L"; lit "M"; lit "Q"; lit "H"]) = false.
Proof.
  apply bool_decide_eq_false_2. intro Hin.
  repeat (apply elem_of_cons in Hin as [Hin|Hin]; [discriminate Hin|]).
  apply elem_of_nil in Hin. exact Hin.
Qed.

Lemma blank_is_no_yes : bool_decide (lower [] ∈ [lit "y"; lit "yes"]) = false.
Proof.
  apply bool_decide_eq_false_2. intro Hin.
  repeat (apply elem_of_cons in Hin as [Hin|Hin]; [discriminate Hin|]).
  apply elem_of_nil in Hin. exact Hin.
Qed.

(** X23. When the user types the data and answers the seven questions
    that follow with blank lines, [get_interactive_input] returns the
    trimmed data with no file name, directory [qr_codes], no version,
    level [L], box size 10, border 4, not styled, and reads nothing more;
    [int] is not called. *)
Theorem blank_answers_give_defaults (text b1 b2 b3 b4 b5 b6 b7 : pystr)
    (rest : list stdin_event) :
  strip text <> [] ->
  Forall (fun b => strip b = []) [b1; b2; b3; b4; b5; b6; b7] ->
  get_interactive_input int_
    (Line text :: Line b1 :: Line b2 :: Line b3 :: Line b4 :: Line b5 :: Line b6
     :: Line b7 :: rest)
  = (Returns {| Inputs.data := strip text;
                Inputs.filename := None;
                Inputs.output_dir := lit "qr_codes";
                Inputs.version := None;
                Inputs.error_correction := lit "L";
                Inputs.box_size := 10;
                Inputs.border := 4;
                Inputs.styled := false;
                Inputs.drawer_style := None;
                Inputs.color_mask := None;
                Inputs.foreground_color := None;
                Inputs.background_color := None |},
     rest).
Proof.
  intros Htext Hblanks.
  apply Forall_cons in Hblanks as [H1 Hblanks].
  apply Forall_cons in Hblanks as [H2 Hblanks].
  apply Forall_cons in Hblanks as [H3 Hblanks].
  apply Forall_cons in Hblanks as [H4 Hblanks].
  apply Forall_cons in Hblanks as [H5 Hblanks].
  apply Forall_cons in Hblanks as [H6 Hblanks].
  apply Forall_cons in Hblanks as [H7 _].
  unfold get_interactive_input.
  rewrite (ask_data _ _ _ Htext). cbv beta zeta.
  rewrite ask_line, H1. cbv beta zeta.
  rewrite ask_line, H2. cbv beta zeta.
  rewrite ask_line, H3. cbv beta zeta.
  rewrite (bool_decide_eq_true_2 (@nil N = []) eq_refl), ret_bind. cbv beta zeta.
  rewrite ask_line, H4, blank_is_no_level. cbv beta zeta.
  rewrite ask_line, H5. cbv beta zeta.
  rewrite (bool_decide_eq_true_2 (@nil N = []) eq_refl), ret_bind. cbv beta zeta.
  rewrite ask_line, H6. cbv beta zeta.
  rewrite (bool_decide_eq_true_2 (@nil N = []) eq_refl), ret_bind. cbv beta zeta.
  rewrite ask_line, H7, blank_is_no_yes. reflexivity.
Qed.

(** X24. A version that [int] refuses is not asked for again: the
    [ValueError] leaves [get_interactive_input] at once, before the
    remaining questions are asked. *)
Theorem refused_version_aborts (text f o v : pystr) (rest : list stdin_event) (e : exn) :
  strip text <> [] ->
  strip v <> [] ->
  int_ (strip v) = Raise e ->
  get_interactive_input int_ (Line text :: Line f :: Line o :: Line v :: rest)
  = (Raises (Of e), rest).
Proof.
  intros Htext Hv Hint.
  unfold get_interactive_input, io_bind, input, io_ret, to_int. simpl.
  rewrite (bool_decide_eq_false_2 _ Htext), (bool_decide_eq_false_2 _ Hv), Hint.
  reflexivity.
Qed.

End Interactive.

(** ** [main] *)

Section Main.
Context {U : Unicode} (E : Env) (int_ : pystr -> result Z) (setup_logger : option exn).

(** X25. [main] ends by the exception its [try] block raised: exit
    status 0 for a [KeyboardInterrupt], exit status 1 for every
    [Exception] ([EOFError] at the prompt included); anything else is not
    caught.  It returns when the block returns. *)
Theorem main_exit_status (args : Namespace.t) (s : list stdin_event) (w : world) :
  match main_body E int_ setup_logger args s w with
  | (Returns _, s', w') => main E int_ setup_logger args s w = (Returns tt, s', w')
  | (Raises EOFError, s', w') =>
      main E int_ setup_logger args s w = (Raises (SystemExit 1), s', w')
  | (Raises (Of e), s', w') =>
      main E int_ setup_logger args s w
      = (Raises (if isinstance e KeyboardInterrupt then SystemExit 0
                 else if isinstance e Exception then SystemExit 1
                 else Of e), s', w')
  | (Raises (SystemExit code), s', w') =>
      main E int_ setup_logger args s w = (Raises (SystemExit code), s', w')
  end.
Proof.
  unfold main.
  destruct (main_body E int_ setup_logger args s w) as [[[p|[e| |code]] s'] w'];
    try reflexivity.
  destruct e as [c m cause]. destruct c; reflexivity.
Qed.

(** X26. When the command line gives data and not [--interactive],
    [main] asks nothing: the terminal is left as it was and plays no
    part in the outcome. *)
Theorem non_interactive_reads_nothing (args : Namespace.t) (s t : list stdin_event)
    (w : world) :
  asks_user args = false ->
  snd (fst (main E int_ setup_logger args s w)) = s
  /\ fst (fst (main E int_ setup_logger args s w))
     = fst (fst (main E int_ setup_logger args t w))
  /\ snd (main E int_ setup_logger args s w) = snd (main E int_ setup_logger args t w).
Proof.
  intro Hask. unfold main, main_body. rewrite Hask.
  destruct (QRCodeGenerator_new E setup_logger (Namespace.output_dir args) w)
    as [[[]|e] w1]; [|repeat split].
  destruct (generate_qr_code E (Namespace.output_dir args) (request_of_args args) w1)
    as [[p|e] w2]; repeat split.
Qed.

(** X27. In interactive mode the drawer style, the colour mask and the
    two colours the user enters have no effect: [main] passes
    [args.drawer], [args.color], [args.foreground] and [args.background]
    to [generate_qr_code], and the merge stores the answers under other
    names.  Two runs whose answers differ in these four only end the
    same. *)
Theorem interactive_style_answers_are_ignored (args : Namespace.t)
    (s t s1 : list stdin_event) (i j : Inputs.t) (w : world) :
  asks_user args = true ->
  get_interactive_input int_ s = (Returns i, s1) ->
  get_interactive_input int_ t = (Returns j, s1) ->
  same_but_style i j ->
  main E int_ setup_logger args s w = main E int_ setup_logger args t w.
Proof.
  intros Hask Hi Hj (Hdata & Hfilename & Hdir & Hversion & Hlevel & Hbox & Hborder & Hstyled).
  unfold main, main_body. rewrite Hask, Hi, Hj.
  assert (Hreq : request_of_args (merge args i) = request_of_args (merge args j)).
  { unfold request_of_args, merge. simpl.
    rewrite Hdata, Hfilename, Hversion, Hlevel, Hbox, Hborder, Hstyled. reflexivity. }
  assert (Hout : Namespace.output_dir (merge args i) = Namespace.output_dir (merge args j)).
  { exact Hdir. }
  rewrite Hreq, Hout. reflexivity.
Qed.

Lemma encoder_is_called (output_dir : pystr) (r : request) (d : pystr) (level : ec_level)
    (w : world) :
  data r = PyStr d ->
  strip d <> [] ->
  dict_get ERROR_CORRECTION_MAP (upper (error_correction r)) = Some level ->
  encode_call r d level ∈ calls (snd (generate_qr_code E output_dir r w)).
Proof.
  intros Hdata Hs Hlevel. rewrite generate_stages, Hdata. cbn [getitem_slice50].
  rewrite bool_decide_eq_false_2 by exact Hs. rewrite Hlevel. cbv zeta.
  destruct (qr_make E d (version r) level (box_size r) (border r)) as [m|e];
    [|apply list_elem_of_here].
  rewrite create_qr_image_stages.
  destruct (requested_image _ _ _ _ _ _) as [img|e]; [|apply list_elem_of_here].
  destruct (qr_make_image E img) as [e|];
    [apply list_elem_of_further, list_elem_of_here|].
  rewrite save_image_stages.
  destruct (img_save E img (output_path output_dir r d)) as [bytes|e];
    apply list_elem_of_further, list_elem_of_further, list_elem_of_here.
Qed.

(** X28. Answers given interactively always pass the validation of
    [generate_qr_code]: with the request [main] builds from them, the data
    is accepted, the level is found, and the encoder is called with the
    data, version, box size and border of the answers. *)
Theorem interactive_answers_reach_encoder (args : Namespace.t) (s s1 : list stdin_event)
    (i : Inputs.t) (w : world) :
  get_interactive_input int_ s = (Returns i, s1) ->
  exists level,
    dict_get ERROR_CORRECTION_MAP (upper (Inputs.error_correction i)) = Some level
    /\ CallEncode (Inputs.data i) (Inputs.version i) level (Inputs.box_size i)
                  (Inputs.border i)
       ∈ calls (snd (generate_qr_code E (Namespace.output_dir (merge args i))
                       (request_of_args (merge args i)) w)).
Proof.
  intro Hi.
  destruct (interactive_data_trimmed int_ _ _ _ Hi) as [Htrim Hne].
  destruct (level_key_is_found _ (interactive_level_in_keys int_ _ _ _ Hi)) as [level Hlevel].
  exists level. split; [exact Hlevel|].
  apply (encoder_is_called _ (request_of_args (merge args i)) (Inputs.data i) level).
  - reflexivity.
  - rewrite Htrim. exact Hne.
  - exact Hlevel.
Qed.

Lemma create_and_probe_calls (output_dir : pystr) (w : world) :
  calls (snd (create_and_probe E output_dir w)) = calls w.
Proof.
  unfold create_and_probe, bind, path_exists, makedirs, open_and_write, remove, ret.
  destruct (bool_decide (output_dir ∈ dirs w)
            || bool_decide (is_Some (files w !! output_dir))); simpl;
    [|destruct (os_makedirs E output_dir); simpl; [reflexivity|]];
    (destruct (open_w E (test_file output_dir)); simpl; [reflexivity|]);
    (destruct (file_write E (test_file output_dir) (lit "test")); simpl; [reflexivity|]);
    (destruct (os_remove E (test_file output_dir)); reflexivity).
Qed.

Lemma generator_new_calls (output_dir : pystr) (w : world) :
  calls (snd (QRCodeGenerator_new E setup_logger output_dir w)) = calls w.
Proof.
  unfold QRCodeGenerator_new, QRCodeGenerator_init.
  destruct setup_logger; [reflexivity|].
  rewrite validate_stages.
  pose proof (create_and_probe_calls output_dir w) as Hcalls.
  destruct (create_and_probe E output_dir w) as [[a|e] w']; exact Hcalls.
Qed.

(** X29. When the generator cannot be constructed (the logger or the
    validation of the output directory raises), [main] ends by that
    exception and the pipeline is not entered: neither the encoder, the
    renderer nor [img.save] is called. *)
Theorem construction_failure_stops_main (args : Namespace.t) (s : list stdin_event)
    (w w1 : world) (e : exn) :
  asks_user args = false ->
  QRCodeGenerator_new E setup_logger (Namespace.output_dir args) w = (Raise e, w1) ->
  main_body E int_ setup_logger args s w = (Raises (Of e), s, w1)
  /\ calls w1 = calls w.
Proof.
  intros Hask Hnew. split.
  - unfold main_body. rewrite Hask, Hnew. reflexivity.
  - pose proof (generator_new_calls (Namespace.output_dir args) w) as Hcalls.
    rewrite Hnew in Hcalls. exact Hcalls.
Qed.

End Main.

(** ** Runs of the model *)

Lemma validate_input_data_accepts_witness :
  fst (@_validate_input_data ascii_only (PyStr (lit " a ")) empty_world) = Ok tt.
Proof.
  apply (proj2 (@validate_input_data_accepts ascii_only (PyStr (lit " a ")) empty_world)).
  exists (lit " a "). split; [reflexivity|].
  exists (chr "a"). split; [|reflexivity].
  apply list_elem_of_further, list_elem_of_here.
Defined.

Lemma generate_returns_witness :
  fst (@generate_qr_code ascii_only all_succeed (lit "qr_codes") hello_request empty_world)
  = Ok (lit "qr_codes/qr_hello.png").
Proof.
  erewrite (proj2 (@generate_returns ascii_only all_succeed (lit "qr_codes") hello_request
                     empty_world _ (lit "qr_codes/qr_hello.png"))); [reflexivity|].
  exists (lit "hello"), ERROR_CORRECT_L, [[true]],
    (@plain_image ascii_only hello_request [[true]]), png_signature.
  repeat split; try reflexivity. vm_compute. discriminate.
Defined.

Lemma generate_path_resolution_witness :
  fst (@generate_qr_code ascii_only all_succeed (lit "qr_codes") absolute_request empty_world)
  = Ok (lit "/tmp/code.png").
Proof.
  destruct (@generate_qr_code ascii_only all_succeed (lit "qr_codes") absolute_request
              empty_world) as [[p|e] w'] eqn:Hrun; [|vm_compute in Hrun; discriminate Hrun].
  destruct (@generate_path_resolution ascii_only all_succeed (lit "qr_codes")
              absolute_request empty_world w' p Hrun) as (_ & Habs & _).
  simpl. f_equal. apply Habs; reflexivity.
Defined.

Lemma generate_raises_only_witness :
  match fst (@generate_qr_code ascii_only read_only_directory (lit "qr_codes") hello_request
               qr_codes_exists) with
  | Raise e => exn_class e = InputValidationError \/ exn_class e = QRGenerationError
  | Ok _ => False
  end.
Proof.
  destruct (@generate_qr_code ascii_only read_only_directory (lit "qr_codes") hello_request
              qr_codes_exists) as [[p|e] w'] eqn:Hrun; simpl.
  - vm_compute in Hrun. discriminate Hrun.
  - apply (@generate_raises_only ascii_only read_only_directory (lit "qr_codes")
             hello_request qr_codes_exists w' e eq_refl Hrun).
    vm_compute in Hrun. injection Hrun as <- _. reflexivity.
Defined.

Lemma keyboard_interrupt_propagates_witness :
  fst (@generate_qr_code ascii_only interrupted (lit "qr_codes") hello_request empty_world)
  = Raise keyboard_interrupt.
Proof.
  apply (@keyboard_interrupt_propagates ascii_only interrupted (lit "qr_codes")
           hello_request empty_world (lit "hello") ERROR_CORRECT_L keyboard_interrupt);
    first [reflexivity | (vm_compute; discriminate) | (left; reflexivity)].
Defined.

Lemma unstyled_ignores_style_names_witness :
  @generate_qr_code ascii_only all_succeed (lit "qr_codes")
    (with_names (lit "L") (lit "triangle") (lit "plaid") hello_request) empty_world
  = @generate_qr_code ascii_only all_succeed (lit "qr_codes") hello_request empty_world.
Proof.
  apply (@unstyled_ignores_style_names ascii_only all_succeed (lit "qr_codes") hello_request
           empty_world (lit "triangle") (lit "plaid")).
  reflexivity.
Defined.

Lemma solid_mask_uses_colors_witness :
  fst (@_create_qr_image ascii_only all_succeed (qr_of solid_request [[true]]) true
         (lit "Rounded") (lit "SOLID") (lit "red") (lit "white") empty_world)
  = Ok (StyledPilImage (qr_of solid_request [[true]]) RoundedModuleDrawer
          (SolidFill (255, 255, 255)%Z (255, 0, 0)%Z)).
Proof.
  rewrite (@solid_mask_uses_colors ascii_only all_succeed (qr_of solid_request [[true]])
             (lit "Rounded") (lit "SOLID") (lit "red") (lit "white") RoundedModuleDrawer
             empty_world); reflexivity.
Defined.

Lemma gradient_mask_ignores_colors_witness :
  @generate_qr_code ascii_only all_succeed (lit "qr_codes")
    (with_colors (lit "red") (lit "blue") radial_request) empty_world
  = @generate_qr_code ascii_only all_succeed (lit "qr_codes") radial_request empty_world.
Proof.
  apply (@gradient_mask_ignores_colors ascii_only all_succeed (lit "qr_codes")
           radial_request empty_world (lit "red") (lit "blue")).
  - reflexivity.
  - vm_compute. discriminate.
Defined.

Lemma validation_returns_witness :
  fst (@_validate_and_create_output_dir ascii_only all_succeed (lit "qr_codes") empty_world)
  = Ok tt
  /\ files (snd (@_validate_and_create_output_dir ascii_only all_succeed (lit "qr_codes")
                   empty_world))
     = delete (lit "qr_codes/.permission_test") (files empty_world).
Proof.
  destruct (@validation_returns ascii_only all_succeed (lit "qr_codes") empty_world)
    as [Hiff Hfiles].
  assert (Hok : fst (@_validate_and_create_output_dir ascii_only all_succeed
                       (lit "qr_codes") empty_world) = Ok tt).
  { apply Hiff. repeat split; reflexivity. }
  split; [exact Hok|exact (Hfiles Hok)].
Defined.


Lemma validation_error_classes_witness :
  exists e',
    @_validate_and_create_output_dir ascii_only read_only_directory (lit "qr_codes")
      qr_codes_exists = (Raise e', qr_codes_exists)
    /\ exn_class e' = FileSystemError.
Proof.
  destruct (@validation_error_classes ascii_only read_only_directory (lit "qr_codes")
              qr_codes_exists qr_codes_exists EACCES eq_refl)
    as (e' & Hrun & _ & _ & Hos & _).
  exists e'. split; [exact Hrun|]. apply Hos. reflexivity.
Defined.

Lemma save_image_behaviour_witness :
  files (snd (@_save_image ascii_only all_succeed
                (@plain_image ascii_only hello_request [[true]]) (lit "qr_codes/x.png")
                empty_world))
    !! lit "qr_codes/x.png" = Some png_signature
  /\ exists e',
       fst (@_save_image ascii_only disk_full
              (@plain_image ascii_only hello_request [[true]]) (lit "qr_codes/x.png")
              empty_world) = Raise e'
       /\ exn_class e' = FileSystemError.
Proof.
  split.
  - apply (proj1 (proj2 (@save_image_behaviour ascii_only all_succeed
                           (@plain_image ascii_only hello_request [[true]])
                           (lit "qr_codes/x.png") empty_world)) png_signature eq_refl).
  - destruct (proj2 (proj2 (@save_image_behaviour ascii_only disk_full
                              (@plain_image ascii_only hello_request [[true]])
                              (lit "qr_codes/x.png") empty_world)) ENOSPC eq_refl)
      as (e' & Hrun & _ & _ & Hos & _).
    exists e'. split; [exact Hrun|]. apply Hos. reflexivity.
Defined.

Lemma makedirs_only_when_missing_witness :
  (exists e',
     @_validate_and_create_output_dir ascii_only no_makedirs (lit "qr_codes") empty_world
     = (Raise e', empty_world)
     /\ exn_class e' = FileSystemError)
  /\ @_validate_and_create_output_dir ascii_only no_makedirs (lit "qr_codes") qr_codes_exists
     = @_validate_and_create_output_dir ascii_only all_succeed (lit "qr_codes")
         qr_codes_exists.
Proof.
  destruct (@makedirs_only_when_missing ascii_only all_succeed (lit "qr_codes")
              qr_codes_exists) as [_ Hthere].
  destruct (@makedirs_only_when_missing ascii_only no_makedirs (lit "qr_codes")
              empty_world) as [Hmissing _].
  split.
  - destruct (Hmissing EACCES) as (e' & Hrun & Hos);
      [apply not_elem_of_empty | reflexivity | reflexivity |].
    exists e'. split; [exact Hrun|]. apply Hos. reflexivity.
  - apply Hthere; [vm_compute|..]; reflexivity.
Defined.

Lemma interactive_data_is_valid_witness :
  exists i s',
    @get_interactive_input ascii_only decimal styled_session = (Returns i, s')
    /\ Inputs.data i = lit "hello"
    /\ @_validate_input_data ascii_only (PyStr (Inputs.data i)) empty_world
       = (Ok tt, empty_world).
Proof.
  destruct (@get_interactive_input ascii_only decimal styled_session) as [[i|e] s'] eqn:Hrun;
    [|vm_compute in Hrun; discriminate Hrun].
  exists i, s'. split; [reflexivity|].
  split; [vm_compute in Hrun; injection Hrun as <- _; reflexivity|].
  apply (@interactive_data_is_valid ascii_only decimal styled_session s' i empty_world Hrun).
Defined.

Lemma interactive_level_is_valid_witness :
  exists i s',
    @get_interactive_input ascii_only decimal styled_session = (Returns i, s')
    /\ Inputs.error_correction i ∈ keys ERROR_CORRECTION_MAP.
Proof.
  destruct (@get_interactive_input ascii_only decimal styled_session) as [[i|e] s'] eqn:Hrun;
    [|vm_compute in Hrun; discriminate Hrun].
  exists i, s'. split; [reflexivity|].
  apply (@interactive_level_is_valid ascii_only decimal styled_session s' i Hrun).
Defined.

Lemma interactive_style_is_valid_witness :
  exists i s',
    @get_interactive_input ascii_only decimal styled_session = (Returns i, s')
    /\ Inputs.styled i = true
    /\ exists ds cm,
         Inputs.drawer_style i = Some ds /\ has_key MODULE_DRAWERS ds = true
         /\ Inputs.color_mask i = Some cm /\ has_key COLOR_MASKS cm = true.
Proof.
  destruct (@get_interactive_input ascii_only decimal styled_session) as [[i|e] s'] eqn:Hrun;
    [|vm_compute in Hrun; discriminate Hrun].
  exists i, s'. split; [reflexivity|].
  pose proof (@interactive_style_is_valid ascii_only decimal styled_session s' i Hrun)
    as Hstyle.
  assert (Hstyled : Inputs.styled i = true).
  { vm_compute in Hrun. injection Hrun as <- _. reflexivity. }
  split; [exact Hstyled|].
  rewrite Hstyled in Hstyle.
  destruct Hstyle as (ds & cm & Hds & Hdk & Hcm & Hck & _).
  exists ds, cm. repeat split; assumption.
Defined.

Lemma blank_data_lines_are_skipped_witness :
  @get_interactive_input ascii_only decimal
    (map Line [lit ""; lit "   "] ++ default_style_session)
  = @get_interactive_input ascii_only decimal default_style_session.
Proof.
  apply (@blank_data_lines_are_skipped ascii_only decimal [lit ""; lit "   "]
           default_style_session).
  repeat constructor.
Defined.

Lemma blank_answers_give_defaults_witness :
  fst (@get_interactive_input ascii_only decimal
         (map Line [lit "hello"; lit ""; lit " "; lit ""; lit ""; lit "  "; lit ""; lit ""]))
  = Returns {| Inputs.data := lit "hello";
               Inputs.filename := None;
               Inputs.output_dir := lit "qr_codes";
               Inputs.version := None;
               Inputs.error_correction := lit "L";
               Inputs.box_size := 10;
               Inputs.border := 4;
               Inputs.styled := false;
               Inputs.drawer_style := None;
               Inputs.color_mask := None;
               Inputs.foreground_color := None;
               Inputs.background_color := None |}.
Proof.
  simpl map.
  rewrite (@blank_answers_give_defaults ascii_only decimal (lit "hello") (lit "") (lit " ")
             (lit "") (lit "") (lit "  ") (lit "") (lit "") []).
  - reflexivity.
  - vm_compute. discriminate.
  - repeat constructor.
Defined.

Lemma refused_version_aborts_witness :
  exists e,
    exn_class e = ValueError
    /\ @get_interactive_input ascii_only decimal
         (map Line [lit "hello"; lit ""; lit ""; lit "five"; lit "L"])
       = (Raises (Of e), [Line (lit "L")]).
Proof.
  destruct (decimal (lit "five")) as [z|e] eqn:Hint; [vm_compute in Hint; discriminate Hint|].
  exists e. split; [vm_compute in Hint; injection Hint as <-; reflexivity|].
  apply (@refused_version_aborts ascii_only decimal (lit "hello") (lit "") (lit "")
           (lit "five") [Line (lit "L")] e).
  - vm_compute. discriminate.
  - vm_compute. discriminate.
  - exact Hint.
Defined.

Lemma non_interactive_reads_nothing_witness :
  snd (fst (@main ascii_only all_succeed decimal None (parsed_defaults (Some (lit "hello")))
              styled_session empty_world))
  = styled_session.
Proof.
  apply (@non_interactive_reads_nothing ascii_only all_succeed decimal None
           (parsed_defaults (Some (lit "hello"))) styled_session [] empty_world).
  reflexivity.
Defined.

Lemma interactive_style_answers_are_ignored_witness :
  @main ascii_only all_succeed decimal None (parsed_defaults None) (tail styled_session)
    empty_world
  = @main ascii_only all_succeed decimal None (parsed_defaults None) default_style_session
      empty_world.
Proof.
  destruct (@get_interactive_input ascii_only decimal (tail styled_session))
    as [[i|e] s1] eqn:Hi; [|vm_compute in Hi; discriminate Hi].
  destruct (@get_interactive_input ascii_only decimal default_style_session)
    as [[j|e] s2] eqn:Hj; [|vm_compute in Hj; discriminate Hj].
  assert (Hs : s2 = s1).
  { vm_compute in Hi, Hj.
    injection Hi as _ <-. injection Hj as _ <-. reflexivity. }
  subst s2.
  apply (@interactive_style_answers_are_ignored ascii_only all_succeed decimal None
           (parsed_defaults None) (tail styled_session) default_style_session s1 i j
           empty_world eq_refl Hi Hj).
  vm_compute in Hi, Hj. injection Hi as <- _. injection Hj as <- _.
  repeat split.
Defined.

Lemma interactive_answers_reach_encoder_witness :
  exists i s1 level,
    @get_interactive_input ascii_only decimal styled_session = (Returns i, s1)
    /\ CallEncode (Inputs.data i) (Inputs.version i) level (Inputs.box_size i)
                  (Inputs.border i)
       ∈ calls (snd (@generate_qr_code ascii_only all_succeed
                       (Namespace.output_dir (merge (parsed_defaults None) i))
                       (request_of_args (merge (parsed_defaults None) i)) empty_world)).
Proof.
  destruct (@get_interactive_input ascii_only decimal styled_session) as [[i|e] s1] eqn:Hrun;
    [|vm_compute in Hrun; discriminate Hrun].
  destruct (@interactive_answers_reach_encoder ascii_only all_succeed decimal
              (parsed_defaults None) styled_session s1 i empty_world Hrun)
    as (level & _ & Hcall).
  exists i, s1, level. split; [reflexivity|exact Hcall].
Defined.

Lemma construction_failure_stops_main_witness :
  exists e w1,
    @main_body ascii_only no_makedirs decimal None (parsed_defaults (Some (lit "hello"))) []
      empty_world = (Raises (Of e), [], w1)
    /\ calls w1 = [].
Proof.
  destruct (@QRCodeGenerator_new ascii_only no_makedirs None (lit "qr_codes") empty_world)
    as [[[]|e] w1] eqn:Hnew; [vm_compute in Hnew; discriminate Hnew|].
  exists e, w1.
  apply (@construction_failure_stops_main ascii_only no_makedirs decimal None
           (parsed_defaults (Some (lit "hello"))) [] empty_world w1 e eq_refl Hnew).
Defined.
